(** * heka/pipeline/config.go: plugin configuration and lifecycle

    A shallow embedding of [pipeline/config.go]: the process-wide plugin
    registry and decoder-encoding table, the [PipelineConfig] object, the
    [PluginWrapper] factory, the section loader and the dynamic filter
    add/remove protocol.

    Go code runs in a small state-and-outcome monad: a call either returns,
    panics (and can be recovered by a deferred handler), or blocks forever
    on a channel operation nobody will complete. *)

From Stdlib Require Import Ascii.
From stdpp Require Import gmap strings list pretty.

Open Scope Z_scope.

(** ** Machine integers *)

(** Go's [uint] on the 64-bit targets heka is built for. *)
Definition uint_modulus : Z := 2 ^ 64.
Definition uint_wrap (z : Z) : Z := z `mod` uint_modulus.
Definition is_uint (z : Z) : Prop := 0 ≤ z < uint_modulus.

(** [int(x)] for an [x : uint]: reinterpretation in two's complement. *)
Definition int_of_uint (z : Z) : Z :=
  if decide (z < 2 ^ 63) then z else z - uint_modulus.

(** [%d] of [fmt.Sprintf]. *)
Definition fmt_d (z : Z) : string := pretty z.

(** ** Outcomes of a Go call *)

Inductive Outcome (S A : Type) : Type :=
  | Returned (a : A) (s : S)
  | Panicked (reason : string) (s : S)
  | Blocked.
Arguments Returned {S A} a s.
Arguments Panicked {S A} reason s.
Arguments Blocked {S A}.

Definition Go (S A : Type) : Type := S → Outcome S A.

Definition ret {S A} (a : A) : Go S A := fun s => Returned a s.
Definition bind {S A B} (m : Go S A) (k : A → Go S B) : Go S B :=
  fun s => match m s with
           | Returned a s' => k a s'
           | Panicked r s' => Panicked r s'
           | Blocked => Blocked
           end.
Definition panic {S A} (reason : string) : Go S A := fun s => Panicked reason s.
Definition block {S A} : Go S A := fun _ => Blocked.
Definition get {S} : Go S S := fun s => Returned s s.
Definition gets {S A} (f : S → A) : Go S A := fun s => Returned (f s) s.
Definition modify {S} (f : S → S) : Go S unit := fun s => Returned tt (f s).

(** [defer func() { if r := recover(); r != nil { ... } }()] around a body:
    a panic of the body is handed to the handler, which sets the named
    results.  Panic values are taken to be non-nil and already rendered by
    [%s]. *)
Definition recovering {S A} (body : Go S A) (handler : string → A) : Go S A :=
  fun s => match body s with
           | Panicked r s' => Returned (handler r) s'
           | o => o
           end.

Declare Scope go_scope.
Delimit Scope go_scope with go.
Notation "'let*' x ':=' m 'in' k" := (bind m (fun x => k))
  (at level 10, x pattern, m at level 100, k at level 200) : go_scope.
Notation "'do' m 'then' k" := (bind m (fun _ => k))
  (at level 10, m at level 100, k at level 200) : go_scope.
Open Scope go_scope.

(** ** Channels *)

(** A buffered channel seen from the one goroutine that this file follows:
    a send into a full buffer and a receive from an empty one never
    complete, since no other goroutine is modelled. *)
Record Chan (A : Type) : Type := MkChan { chan_cap : Z; chan_buf : list A }.
Arguments MkChan {A} chan_cap chan_buf.
Arguments chan_cap {A} c.
Arguments chan_buf {A} c.

Definition chan_send {A} (x : A) (c : Chan A) : option (Chan A) :=
  if decide (Z.of_nat (length (chan_buf c)) < chan_cap c)
  then Some (MkChan (chan_cap c) (chan_buf c ++ [x]))
  else None.

Definition chan_recv {A} (c : Chan A) : option (A * Chan A) :=
  match chan_buf c with
  | [] => None
  | x :: rest => Some (x, MkChan (chan_cap c) rest)
  end.

(** ** Messages and packs *)

Record Message : Type := {
  Timestamp : Z;
  Uuid : string;
  Hostname : string;
  Pid : Z;
  Payload : string;
}.

Definition SetTimestamp (t : Z) (m : Message) : Message :=
  {| Timestamp := t; Uuid := Uuid m; Hostname := Hostname m; Pid := Pid m;
     Payload := Payload m |}.
Definition SetUuid (u : string) (m : Message) : Message :=
  {| Timestamp := Timestamp m; Uuid := u; Hostname := Hostname m; Pid := Pid m;
     Payload := Payload m |}.
Definition SetHostname (h : string) (m : Message) : Message :=
  {| Timestamp := Timestamp m; Uuid := Uuid m; Hostname := h; Pid := Pid m;
     Payload := Payload m |}.
Definition SetPid (p : Z) (m : Message) : Message :=
  {| Timestamp := Timestamp m; Uuid := Uuid m; Hostname := Hostname m; Pid := p;
     Payload := Payload m |}.

(** The recycle channel a pack goes home to. *)
Inductive Pool : Type := InputPool | InjectPool.

(** Go type [PipelinePack]. *)
Record Pack : Type := {
  Msg : Message;
  RefCount : Z;
  MsgLoopCount : Z;
  RecycleChan : Pool;
}.

(** What [time.Now().UnixNano()] and [uuid.NewRandom()] give at a call. *)
Record Clock : Type := { now_ns : Z; new_uuid : string }.

(** ** TOML values

    The parsed configuration document, as the toml package hands it over:
    a [toml.Primitive] is an undecoded value, a section is a table. *)
#[local] Unset Elimination Schemes.
Inductive TomlValue : Type :=
  | TString (s : string)
  | TInteger (z : Z)
  | TBool (b : bool)
  | TTable (kvs : list (string * TomlValue)).
#[local] Set Elimination Schemes.

Definition Primitive : Type := TomlValue.

Fixpoint toml_get (k : string) (kvs : list (string * TomlValue)) : option TomlValue :=
  match kvs with
  | [] => None
  | (k', v) :: rest => if decide (k = k') then Some v else toml_get k rest
  end.

(** Go type [ConfigFile]: section name to raw section.  A Go map has no
    duplicate keys and is ranged over in an unspecified order; the list is
    the document in the order the loader happens to visit it. *)
Definition ConfigFile : Type := list (string * Primitive).

(** ** Plugin globals *)

Record RetryOptions : Type := {
  MaxDelay : string;
  Delay : string;
  MaxRetries : Z;
}.

Record PluginGlobals : Type := {
  Typ : string;
  Ticker : Z;
  Encoding : string;
  Matcher : string;
  Signer : string;
  PoolSize : Z;
  Retries : RetryOptions;
}.

Definition with_PoolSize (n : Z) (g : PluginGlobals) : PluginGlobals :=
  {| Typ := Typ g; Ticker := Ticker g; Encoding := Encoding g;
     Matcher := Matcher g; Signer := Signer g; PoolSize := n;
     Retries := Retries g |}.

(** Decoding one key of a table into a struct field that already holds a
    value: an absent key leaves the field alone, a value of the wrong TOML
    type is an error.  An integer goes into a [uint] field as [uint64(z)],
    with no range check: a negative value wraps around. *)
Definition field_string (k : string) (kvs : list (string * TomlValue))
    (old : string) : string + string :=
  match toml_get k kvs with
  | None => inr old
  | Some (TString s) => inr s
  | Some _ => inl ("type mismatch for " +:+ k +:+ ": expected string")
  end.

Definition field_uint (k : string) (kvs : list (string * TomlValue))
    (old : Z) : string + Z :=
  match toml_get k kvs with
  | None => inr old
  | Some (TInteger z) => inr (uint_wrap z)
  | Some _ => inl ("type mismatch for " +:+ k +:+ ": expected integer")
  end.

Definition field_int (k : string) (kvs : list (string * TomlValue))
    (old : Z) : string + Z :=
  match toml_get k kvs with
  | None => inr old
  | Some (TInteger z) => inr z
  | Some _ => inl ("type mismatch for " +:+ k +:+ ": expected integer")
  end.

Definition and_then {A B} (r : string + A) (k : A → string + B) : string + B :=
  match r with
  | inl e => inl e
  | inr a => k a
  end.

Definition decode_RetryOptions (kvs : list (string * TomlValue))
    (into : RetryOptions) : string + RetryOptions :=
  match toml_get "retries" kvs with
  | None => inr into
  | Some (TTable r) =>
      and_then (field_string "max_delay" r (MaxDelay into)) (fun md =>
      and_then (field_string "delay" r (Delay into)) (fun d =>
      and_then (field_int "max_retries" r (MaxRetries into)) (fun mr =>
      inr {| MaxDelay := md; Delay := d; MaxRetries := mr |})))
  | Some _ => inl "type mismatch for retries: expected table"
  end.

(** [toml.PrimitiveDecode(configSection, &pluginGlobals)]: the keys of the
    section that [PluginGlobals] names by its struct tags are written over
    the values the struct holds; every other key is left for the plugin. *)
Definition decode_PluginGlobals (conf : Primitive) (into : PluginGlobals)
    : string + PluginGlobals :=
  match conf with
  | TTable kvs =>
      and_then (field_string "type" kvs (Typ into)) (fun typ =>
      and_then (field_uint "ticker_interval" kvs (Ticker into)) (fun tick =>
      and_then (field_string "encoding_name" kvs (Encoding into)) (fun enc =>
      and_then (field_string "message_matcher" kvs (Matcher into)) (fun mat =>
      and_then (field_string "message_signer" kvs (Signer into)) (fun sig =>
      and_then (field_uint "pool_size" kvs (PoolSize into)) (fun pool =>
      and_then (decode_RetryOptions kvs (Retries into)) (fun retr =>
      inr {| Typ := typ; Ticker := tick; Encoding := enc; Matcher := mat;
             Signer := sig; PoolSize := pool; Retries := retr |})))))))
  | _ => inl "type mismatch: expected table"
  end.

(** ** Plugins

    Plugin implementations live outside this file; what the loader can
    observe of a registered Go type is collected in [PluginType]. *)

(** The value handed to [Init]: the generic [PluginConfig] map, or the
    plugin's own config struct after the section was decoded into it. *)
Inductive ConfigValue : Type :=
  | CfgMap (kvs : list (string * Primitive))
  | CfgStruct (fields : list (string * TomlValue)).

(** Interface [HasConfigStruct], and what decoding a section into the
    struct it returns gives. *)
Inductive ConfigStructCap : Type :=
  | NoConfigStruct
  | ConfigStructPanics (reason : string)
  | ConfigStructDefault (decode : Primitive → string + ConfigValue).

Inductive InitResult : Type :=
  | InitOk
  | InitError (e : string)
  | InitPanics (reason : string).

Record PluginType : Type := {
  pt_name : string;
  pt_ConfigStruct : ConfigStructCap;
  (* [None]: the type has no [Init] method, it is not a [Plugin].  What
     [Init] does may differ from one instance (address) to the next. *)
  pt_Init : option (nat → ConfigValue → InitResult);
  pt_isDecoder : bool;
  pt_isInput : bool;
}.

(** A registered [func() interface{}].  Every factory of [init] below is
    [new(T)]; a factory may also fail abnormally.  A factory that hands out
    one shared object is not modelled. *)
Inductive Factory : Type :=
  | FactoryNew (t : PluginType)
  | FactoryPanics (reason : string).

(** A plugin value: a pointer to a struct of some plugin type.  [inst_addr]
    tells two instances apart, [inst_config] is the config its [Init]
    accepted. *)
Record PluginInst : Type := {
  inst_type : PluginType;
  inst_addr : nat;
  inst_config : option ConfigValue;
}.

Record PluginWrapper : Type := {
  w_name : string;
  configCreator : unit → ConfigValue;
  pluginCreator : Factory;
}.

(** ** Runners and the router

    Modelled from the spec: the runner constructors [NewDecoderRunner],
    [NewInputRunner], [NewFORunner], [NewMatchRunner] and the
    [messageRouter] are declared in other files of the package; the
    records keep what the constructors are given. *)
Record MatchRunner : Type := {
  mr_addr : nat;
  mr_spec : string;
  mr_signer : string;
}.

Record DecoderRunner : Type := {
  dr_name : string;
  dr_decoder : PluginInst;
  dr_globals : PluginGlobals;
  dr_started : bool;
}.

Record InputRunner : Type := {
  ir_name : string;
  ir_input : PluginInst;
  ir_globals : PluginGlobals;
}.

(** [foRunner], behind both [FilterRunner] and [OutputRunner]. *)
Record FORunner : Type := {
  fo_name : string;
  fo_plugin : PluginInst;
  fo_globals : PluginGlobals;
  fo_tickLength : Z;
  fo_matcher : option MatchRunner;
  (* the inbound channel, by address *)
  fo_inChan : nat;
}.

Definition with_tickLength (d : Z) (r : FORunner) : FORunner :=
  {| fo_name := fo_name r; fo_plugin := fo_plugin r; fo_globals := fo_globals r;
     fo_tickLength := d; fo_matcher := fo_matcher r; fo_inChan := fo_inChan r |}.
Definition with_matcher (m : option MatchRunner) (r : FORunner) : FORunner :=
  {| fo_name := fo_name r; fo_plugin := fo_plugin r; fo_globals := fo_globals r;
     fo_tickLength := fo_tickLength r; fo_matcher := m; fo_inChan := fo_inChan r |}.
Definition with_name (n : string) (r : FORunner) : FORunner :=
  {| fo_name := n; fo_plugin := fo_plugin r; fo_globals := fo_globals r;
     fo_tickLength := fo_tickLength r; fo_matcher := fo_matcher r;
     fo_inChan := fo_inChan r |}.

(** [mrChan] is read by the router's own goroutine; here it is the
    sequence of matchers sent down it so far ([None] is a nil pointer). *)
Record messageRouter : Type := {
  fMatchers : list MatchRunner;
  oMatchers : list MatchRunner;
  mrChan : list (option MatchRunner);
}.

Definition set_fMatchers (f : list MatchRunner → list MatchRunner)
    (c : messageRouter) : messageRouter :=
  {| fMatchers := f (fMatchers c); oMatchers := oMatchers c;
     mrChan := mrChan c |}.
Definition set_oMatchers (f : list MatchRunner → list MatchRunner)
    (c : messageRouter) : messageRouter :=
  {| fMatchers := fMatchers c; oMatchers := f (oMatchers c);
     mrChan := mrChan c |}.
Definition set_mrChan (f : list (option MatchRunner) → list (option MatchRunner))
    (c : messageRouter) : messageRouter :=
  {| fMatchers := fMatchers c; oMatchers := oMatchers c;
     mrChan := f (mrChan c) |}.

(** ** The pipeline configuration *)

(** Modelled from the spec: [GlobalConfigStruct] and [Globals] are declared
    in another file of the package; these are the fields config.go reads.
    [MaxMsgLoops] is a [uint], [DecoderPoolSize] an [int]. *)
Record GlobalConfigStruct : Type := {
  g_PoolSize : Z;
  DecoderPoolSize : Z;
  MaxMsgLoops : Z;
  Stopping : bool;
}.

Record PipelineConfig : Type := {
  InputRunners : gmap string InputRunner;
  inputWrappers : gmap string PluginWrapper;
  DecoderWrappers : gmap string PluginWrapper;
  FilterRunners : gmap string FORunner;
  filterWrappers : gmap string PluginWrapper;
  OutputRunners : gmap string FORunner;
  outputWrappers : gmap string PluginWrapper;
  router : messageRouter;
  inputRecycleChan : Chan Pack;
  injectRecycleChan : Chan Pack;
  logMsgs : list string;
  (* the counter of the sync.WaitGroup *)
  filtersWg : Z;
  (* the counter of the sync.WaitGroup *)
  decodersWg : Z;
  decoderChannels : gmap string (Chan DecoderRunner);
  allDecoders : list DecoderRunner;
  hostname : string;
  pid : Z;
}.

Definition set_InputRunners (f : gmap string InputRunner → gmap string InputRunner)
    (c : PipelineConfig) : PipelineConfig :=
  {| InputRunners := f (InputRunners c); inputWrappers := inputWrappers c;
     DecoderWrappers := DecoderWrappers c; FilterRunners := FilterRunners c;
     filterWrappers := filterWrappers c; OutputRunners := OutputRunners c;
     outputWrappers := outputWrappers c; router := router c;
     inputRecycleChan := inputRecycleChan c;
     injectRecycleChan := injectRecycleChan c; logMsgs := logMsgs c;
     filtersWg := filtersWg c; decodersWg := decodersWg c;
     decoderChannels := decoderChannels c; allDecoders := allDecoders c;
     hostname := hostname c; pid := pid c |}.
Definition set_inputWrappers (f : gmap string PluginWrapper → gmap string PluginWrapper)
    (c : PipelineConfig) : PipelineConfig :=
  {| InputRunners := InputRunners c; inputWrappers := f (inputWrappers c);
     DecoderWrappers := DecoderWrappers c; FilterRunners := FilterRunners c;
     filterWrappers := filterWrappers c; OutputRunners := OutputRunners c;
     outputWrappers := outputWrappers c; router := router c;
     inputRecycleChan := inputRecycleChan c;
     injectRecycleChan := injectRecycleChan c; logMsgs := logMsgs c;
     filtersWg := filtersWg c; decodersWg := decodersWg c;
     decoderChannels := decoderChannels c; allDecoders := allDecoders c;
     hostname := hostname c; pid := pid c |}.
Definition set_DecoderWrappers (f : gmap string PluginWrapper → gmap string PluginWrapper)
    (c : PipelineConfig) : PipelineConfig :=
  {| InputRunners := InputRunners c; inputWrappers := inputWrappers c;
     DecoderWrappers := f (DecoderWrappers c);
     FilterRunners := FilterRunners c; filterWrappers := filterWrappers c;
     OutputRunners := OutputRunners c; outputWrappers := outputWrappers c;
     router := router c; inputRecycleChan := inputRecycleChan c;
     injectRecycleChan := injectRecycleChan c; logMsgs := logMsgs c;
     filtersWg := filtersWg c; decodersWg := decodersWg c;
     decoderChannels := decoderChannels c; allDecoders := allDecoders c;
     hostname := hostname c; pid := pid c |}.
Definition set_FilterRunners (f : gmap string FORunner → gmap string FORunner)
    (c : PipelineConfig) : PipelineConfig :=
  {| InputRunners := InputRunners c; inputWrappers := inputWrappers c;
     DecoderWrappers := DecoderWrappers c;
     FilterRunners := f (FilterRunners c); filterWrappers := filterWrappers c;
     OutputRunners := OutputRunners c; outputWrappers := outputWrappers c;
     router := router c; inputRecycleChan := inputRecycleChan c;
     injectRecycleChan := injectRecycleChan c; logMsgs := logMsgs c;
     filtersWg := filtersWg c; decodersWg := decodersWg c;
     decoderChannels := decoderChannels c; allDecoders := allDecoders c;
     hostname := hostname c; pid := pid c |}.
Definition set_filterWrappers (f : gmap string PluginWrapper → gmap string PluginWrapper)
    (c : PipelineConfig) : PipelineConfig :=
  {| InputRunners := InputRunners c; inputWrappers := inputWrappers c;
     DecoderWrappers := DecoderWrappers c; FilterRunners := FilterRunners c;
     filterWrappers := f (filterWrappers c); OutputRunners := OutputRunners c;
     outputWrappers := outputWrappers c; router := router c;
     inputRecycleChan := inputRecycleChan c;
     injectRecycleChan := injectRecycleChan c; logMsgs := logMsgs c;
     filtersWg := filtersWg c; decodersWg := decodersWg c;
     decoderChannels := decoderChannels c; allDecoders := allDecoders c;
     hostname := hostname c; pid := pid c |}.
Definition set_OutputRunners (f : gmap string FORunner → gmap string FORunner)
    (c : PipelineConfig) : PipelineConfig :=
  {| InputRunners := InputRunners c; inputWrappers := inputWrappers c;
     DecoderWrappers := DecoderWrappers c; FilterRunners := FilterRunners c;
     filterWrappers := filterWrappers c; OutputRunners := f (OutputRunners c);
     outputWrappers := outputWrappers c; router := router c;
     inputRecycleChan := inputRecycleChan c;
     injectRecycleChan := injectRecycleChan c; logMsgs := logMsgs c;
     filtersWg := filtersWg c; decodersWg := decodersWg c;
     decoderChannels := decoderChannels c; allDecoders := allDecoders c;
     hostname := hostname c; pid := pid c |}.
Definition set_outputWrappers (f : gmap string PluginWrapper → gmap string PluginWrapper)
    (c : PipelineConfig) : PipelineConfig :=
  {| InputRunners := InputRunners c; inputWrappers := inputWrappers c;
     DecoderWrappers := DecoderWrappers c; FilterRunners := FilterRunners c;
     filterWrappers := filterWrappers c; OutputRunners := OutputRunners c;
     outputWrappers := f (outputWrappers c); router := router c;
     inputRecycleChan := inputRecycleChan c;
     injectRecycleChan := injectRecycleChan c; logMsgs := logMsgs c;
     filtersWg := filtersWg c; decodersWg := decodersWg c;
     decoderChannels := decoderChannels c; allDecoders := allDecoders c;
     hostname := hostname c; pid := pid c |}.
Definition set_router (f : messageRouter → messageRouter)
    (c : PipelineConfig) : PipelineConfig :=
  {| InputRunners := InputRunners c; inputWrappers := inputWrappers c;
     DecoderWrappers := DecoderWrappers c; FilterRunners := FilterRunners c;
     filterWrappers := filterWrappers c; OutputRunners := OutputRunners c;
     outputWrappers := outputWrappers c; router := f (router c);
     inputRecycleChan := inputRecycleChan c;
     injectRecycleChan := injectRecycleChan c; logMsgs := logMsgs c;
     filtersWg := filtersWg c; decodersWg := decodersWg c;
     decoderChannels := decoderChannels c; allDecoders := allDecoders c;
     hostname := hostname c; pid := pid c |}.
Definition set_injectRecycleChan (f : Chan Pack → Chan Pack)
    (c : PipelineConfig) : PipelineConfig :=
  {| InputRunners := InputRunners c; inputWrappers := inputWrappers c;
     DecoderWrappers := DecoderWrappers c; FilterRunners := FilterRunners c;
     filterWrappers := filterWrappers c; OutputRunners := OutputRunners c;
     outputWrappers := outputWrappers c; router := router c;
     inputRecycleChan := inputRecycleChan c;
     injectRecycleChan := f (injectRecycleChan c); logMsgs := logMsgs c;
     filtersWg := filtersWg c; decodersWg := decodersWg c;
     decoderChannels := decoderChannels c; allDecoders := allDecoders c;
     hostname := hostname c; pid := pid c |}.
Definition set_logMsgs (f : list string → list string)
    (c : PipelineConfig) : PipelineConfig :=
  {| InputRunners := InputRunners c; inputWrappers := inputWrappers c;
     DecoderWrappers := DecoderWrappers c; FilterRunners := FilterRunners c;
     filterWrappers := filterWrappers c; OutputRunners := OutputRunners c;
     outputWrappers := outputWrappers c; router := router c;
     inputRecycleChan := inputRecycleChan c;
     injectRecycleChan := injectRecycleChan c; logMsgs := f (logMsgs c);
     filtersWg := filtersWg c; decodersWg := decodersWg c;
     decoderChannels := decoderChannels c; allDecoders := allDecoders c;
     hostname := hostname c; pid := pid c |}.
Definition set_filtersWg (f : Z → Z) (c : PipelineConfig) : PipelineConfig :=
  {| InputRunners := InputRunners c; inputWrappers := inputWrappers c;
     DecoderWrappers := DecoderWrappers c; FilterRunners := FilterRunners c;
     filterWrappers := filterWrappers c; OutputRunners := OutputRunners c;
     outputWrappers := outputWrappers c; router := router c;
     inputRecycleChan := inputRecycleChan c;
     injectRecycleChan := injectRecycleChan c; logMsgs := logMsgs c;
     filtersWg := f (filtersWg c); decodersWg := decodersWg c;
     decoderChannels := decoderChannels c; allDecoders := allDecoders c;
     hostname := hostname c; pid := pid c |}.
Definition set_decodersWg (f : Z → Z) (c : PipelineConfig) : PipelineConfig :=
  {| InputRunners := InputRunners c; inputWrappers := inputWrappers c;
     DecoderWrappers := DecoderWrappers c; FilterRunners := FilterRunners c;
     filterWrappers := filterWrappers c; OutputRunners := OutputRunners c;
     outputWrappers := outputWrappers c; router := router c;
     inputRecycleChan := inputRecycleChan c;
     injectRecycleChan := injectRecycleChan c; logMsgs := logMsgs c;
     filtersWg := filtersWg c; decodersWg := f (decodersWg c);
     decoderChannels := decoderChannels c; allDecoders := allDecoders c;
     hostname := hostname c; pid := pid c |}.
Definition set_decoderChannels (f : gmap string (Chan DecoderRunner) → gmap string (Chan DecoderRunner))
    (c : PipelineConfig) : PipelineConfig :=
  {| InputRunners := InputRunners c; inputWrappers := inputWrappers c;
     DecoderWrappers := DecoderWrappers c; FilterRunners := FilterRunners c;
     filterWrappers := filterWrappers c; OutputRunners := OutputRunners c;
     outputWrappers := outputWrappers c; router := router c;
     inputRecycleChan := inputRecycleChan c;
     injectRecycleChan := injectRecycleChan c; logMsgs := logMsgs c;
     filtersWg := filtersWg c; decodersWg := decodersWg c;
     decoderChannels := f (decoderChannels c); allDecoders := allDecoders c;
     hostname := hostname c; pid := pid c |}.
Definition set_allDecoders (f : list DecoderRunner → list DecoderRunner)
    (c : PipelineConfig) : PipelineConfig :=
  {| InputRunners := InputRunners c; inputWrappers := inputWrappers c;
     DecoderWrappers := DecoderWrappers c; FilterRunners := FilterRunners c;
     filterWrappers := filterWrappers c; OutputRunners := OutputRunners c;
     outputWrappers := outputWrappers c; router := router c;
     inputRecycleChan := inputRecycleChan c;
     injectRecycleChan := injectRecycleChan c; logMsgs := logMsgs c;
     filtersWg := filtersWg c; decodersWg := decodersWg c;
     decoderChannels := decoderChannels c; allDecoders := f (allDecoders c);
     hostname := hostname c; pid := pid c |}.

(** The package-level variables, the two facts about the heap that the
    code depends on (the next free address, the channels already closed),
    and the [PipelineConfig] the methods are called on. *)
Record State : Type := {
  AvailablePlugins : gmap string Factory;
  DecodersByEncoding : gmap Z string;
  topHeaderMessageEncoding : Z;
  Globals : GlobalConfigStruct;
  next_addr : nat;
  closed_chans : gset nat;
  self : PipelineConfig;
}.

Definition set_AvailablePlugins (f : gmap string Factory → gmap string Factory)
    (c : State) : State :=
  {| AvailablePlugins := f (AvailablePlugins c);
     DecodersByEncoding := DecodersByEncoding c;
     topHeaderMessageEncoding := topHeaderMessageEncoding c;
     Globals := Globals c; next_addr := next_addr c;
     closed_chans := closed_chans c; self := self c |}.
Definition set_DecodersByEncoding (f : gmap Z string → gmap Z string)
    (c : State) : State :=
  {| AvailablePlugins := AvailablePlugins c;
     DecodersByEncoding := f (DecodersByEncoding c);
     topHeaderMessageEncoding := topHeaderMessageEncoding c;
     Globals := Globals c; next_addr := next_addr c;
     closed_chans := closed_chans c; self := self c |}.
Definition set_topHeaderMessageEncoding (f : Z → Z) (c : State) : State :=
  {| AvailablePlugins := AvailablePlugins c;
     DecodersByEncoding := DecodersByEncoding c;
     topHeaderMessageEncoding := f (topHeaderMessageEncoding c);
     Globals := Globals c; next_addr := next_addr c;
     closed_chans := closed_chans c; self := self c |}.
Definition set_next_addr (f : nat → nat) (c : State) : State :=
  {| AvailablePlugins := AvailablePlugins c;
     DecodersByEncoding := DecodersByEncoding c;
     topHeaderMessageEncoding := topHeaderMessageEncoding c;
     Globals := Globals c; next_addr := f (next_addr c);
     closed_chans := closed_chans c; self := self c |}.
Definition set_closed_chans (f : gset nat → gset nat) (c : State) : State :=
  {| AvailablePlugins := AvailablePlugins c;
     DecodersByEncoding := DecodersByEncoding c;
     topHeaderMessageEncoding := topHeaderMessageEncoding c;
     Globals := Globals c; next_addr := next_addr c;
     closed_chans := f (closed_chans c); self := self c |}.
Definition set_self (f : PipelineConfig → PipelineConfig) (c : State) : State :=
  {| AvailablePlugins := AvailablePlugins c;
     DecodersByEncoding := DecodersByEncoding c;
     topHeaderMessageEncoding := topHeaderMessageEncoding c;
     Globals := Globals c; next_addr := next_addr c;
     closed_chans := closed_chans c; self := f (self c) |}.

Definition MAX_HEADER_MESSAGEENCODING : Z := 256.

(** [RegisterPlugin] *)
Definition RegisterPlugin (name : string) (factory : Factory) (s : State) : State :=
  set_AvailablePlugins <[name := factory]> s.

(** [new] and [make]: a fresh address. *)
Definition alloc : Go State nat :=
  fun s => Returned (next_addr s) (set_next_addr S s).

(** [NewPipelineConfig], for given globals, host name and process id.
    The recycle channels are made with capacity [PoolSize] and are empty. *)
Definition NewPipelineConfig (globals : GlobalConfigStruct) (host : string)
    (process : Z) : PipelineConfig :=
  {| InputRunners := ∅; inputWrappers := ∅; DecoderWrappers := ∅;
     FilterRunners := ∅; filterWrappers := ∅; OutputRunners := ∅;
     outputWrappers := ∅;
     router := {| fMatchers := []; oMatchers := []; mrChan := [] |};
     inputRecycleChan := MkChan (g_PoolSize globals) [];
     injectRecycleChan := MkChan (g_PoolSize globals) [];
     logMsgs := []; filtersWg := 0; decodersWg := 0; decoderChannels := ∅;
     allDecoders := []; hostname := host; pid := process |}.

(** ** PipelinePack *)

Definition PipelinePack (clock : Clock) (msgLoopCount : Z)
    : Go State (option Pack) :=
  let msgLoopCount := uint_wrap (msgLoopCount + 1) in
  let* globals := gets Globals in
  if decide (MaxMsgLoops globals < msgLoopCount) then ret None
  else
    let* this := gets self in
    match chan_recv (injectRecycleChan this) with
    | None => block
    | Some (pack, rest) =>
        do modify (set_self (set_injectRecycleChan (fun _ => rest))) then
        let message := SetTimestamp (now_ns clock) (Msg pack) in
        let message := SetUuid (new_uuid clock) message in
        let message := SetHostname (hostname this) message in
        let message := SetPid (pid this) message in
        ret (Some {| Msg := message; RefCount := 1;
                     MsgLoopCount := msgLoopCount;
                     RecycleChan := RecycleChan pack |})
    end.

(** ** The plugin type pattern *)

Definition newline : ascii := "010"%char.

(** The alternatives of the group, in the order the pattern lists them. *)
Definition PluginTypeAlternatives : list string :=
  ["Decoder"; "Filter"; "Input"; "Output"].

(** [(Decoder|Filter|Input|Output)$] tried at the start of [s]: the first
    alternative that is all of [s]. *)
Definition match_group (s : string) : option string :=
  head (filter (fun alt => s = alt) PluginTypeAlternatives).

(** [PluginTypeRegex = "^.*(Decoder|Filter|Input|Output)$"], matched the way
    Go's regexp does it.  The pattern carries no flag, so [^] and [$] are the
    two ends of the text and [.] is any character but a line feed.  [.*] is
    greedy: it takes the next character when it may and the rest of the
    pattern is tried behind it, and only when that fails is the group tried
    at the place where [.*] stands. *)
Fixpoint match_dot_star_group (s : string) : option string :=
  match s with
  | EmptyString => match_group s
  | String c rest =>
      if decide (c = newline) then match_group s
      else match match_dot_star_group rest with
           | Some g => Some g
           | None => match_group s
           end
  end.

(** [PluginTypeRegex.FindStringSubmatch]: nil, or the whole match followed
    by the text of the group. *)
Definition PluginTypeRegex_FindStringSubmatch (s : string) : list string :=
  match match_dot_star_group s with
  | Some g => [s; g]
  | None => []
  end.

(** ** Dynamic filters, the encoding table, wrappers and the loader *)

Definition log (msg : string) : Go State unit :=
  modify (set_self (set_logMsgs (fun l => l ++ [msg]))).

(** [close(c)] *)
Definition close_chan (c : nat) : Go State unit :=
  fun s => if decide (c ∈ closed_chans s)
           then Panicked "close of closed channel" s
           else Returned tt (set_closed_chans (fun cs => {[c]} ∪ cs) s).

(** [self.router.MrChan() <- m] *)
Definition send_MrChan (m : option MatchRunner) : Go State unit :=
  modify (set_self (set_router (set_mrChan (fun q => q ++ [m])))).

(** [pluginCreator()] *)
Definition call_factory (f : Factory) : Go State PluginInst :=
  match f with
  | FactoryPanics r => panic r
  | FactoryNew t =>
      let* a := alloc in
      ret {| inst_type := t; inst_addr := a; inst_config := None |}
  end.

(** [plugin.(Plugin).Init(config)] *)
Definition Plugin_Init (plugin : PluginInst) (config : ConfigValue)
    : Go State (PluginInst * option string) :=
  match pt_Init (inst_type plugin) with
  | None => panic ("interface conversion: *pipeline." +:+ pt_name (inst_type plugin)
                   +:+ " is not pipeline.Plugin: missing method Init")
  | Some init =>
      match init (inst_addr plugin) config with
      | InitOk => ret ({| inst_type := inst_type plugin;
                          inst_addr := inst_addr plugin;
                          inst_config := Some config |}, None)
      | InitError e => ret (plugin, Some e)
      | InitPanics r => panic r
      end
  end.

(** [PluginWrapper.CreateWithError] *)
Definition CreateWithError (this : PluginWrapper)
    : Go State (option PluginInst * option string) :=
  recovering
    (let* plugin := call_factory (pluginCreator this) in
     let* (plugin, err) := Plugin_Init plugin (configCreator this tt) in
     ret (Some plugin, err))
    (fun r => (None, Some ("'" +:+ w_name this +:+ "' Init() panicked: " +:+ r))).

(** [PluginWrapper.Create] *)
Definition Create (this : PluginWrapper) : Go State (option PluginInst) :=
  let* (plugin, _) := CreateWithError this in
  ret plugin.

(** [toml.PrimitiveDecode(config, PluginConfig{})] *)
Definition decode_PluginConfig (config : Primitive) : string + ConfigValue :=
  match config with
  | TTable kvs => inr (CfgMap kvs)
  | _ => inl "type mismatch: expected table"
  end.

(** [LoadConfigStruct]: [inl err] is the pair (nil, err), [inr c] the pair
    (c, nil). *)
Definition LoadConfigStruct (config : Primitive) (configable : PluginInst)
    : Go State (string + ConfigValue) :=
  match pt_ConfigStruct (inst_type configable) with
  | NoConfigStruct => ret (decode_PluginConfig config)
  | cap =>
      recovering
        (let* decode :=
           match cap with
           | ConfigStructDefault decode => ret decode
           | ConfigStructPanics r => panic r
           | NoConfigStruct => ret decode_PluginConfig
           end in
         match decode config with
         | inl e => ret (inl ("Can't unmarshal config: " +:+ e))
         | inr c => ret (inr c)
         end)
        (fun r => inl ("ConfigStruct() panicked: " +:+ r))
  end.

(** [x.(Decoder)] and [x.(Input)] *)
Definition assert_Decoder (x : option PluginInst) : Go State PluginInst :=
  match x with
  | None => panic "interface conversion: interface is nil, not pipeline.Decoder"
  | Some p =>
      if pt_isDecoder (inst_type p) then ret p
      else panic ("interface conversion: *pipeline." +:+ pt_name (inst_type p)
                  +:+ " is not pipeline.Decoder")
  end.

Definition assert_Input (p : PluginInst) : Go State PluginInst :=
  if pt_isInput (inst_type p) then ret p
  else panic ("interface conversion: *pipeline." +:+ pt_name (inst_type p)
              +:+ " is not pipeline.Input").

Definition assert_Plugin (p : PluginInst) : Go State PluginInst :=
  match pt_Init (inst_type p) with
  | Some _ => ret p
  | None => panic ("interface conversion: *pipeline." +:+ pt_name (inst_type p)
                   +:+ " is not pipeline.Plugin: missing method Init")
  end.

(** [make(chan DecoderRunner, size)] for a [uint] size: a size that does
    not fit an [int] is a run-time panic.  The run time also refuses a
    buffer that does not fit its address space, from a size that depends on
    the platform and the Go release; that cap is not modelled, and what is
    said below of a channel that was made holds for the sizes the run time
    accepts. *)
Definition make_chan {A} (size : Z) : Go State (Chan A) :=
  if decide (size < 2 ^ 63) then ret (MkChan size [])
  else panic "makechan: size out of range".

(** [dChan <- dRunner] *)
Definition send {A} (x : A) (c : Chan A) : Go State (Chan A) :=
  match chan_send x c with
  | Some c' => ret c'
  | None => block
  end.

(** The closure [makeDRunner] of [loadSection]; the channel it sends into
    is threaded through. *)
Definition makeDRunner (pluginGlobals : PluginGlobals) (name : string)
    (decoder : PluginInst) (dChan : Chan DecoderRunner)
    : Go State (Chan DecoderRunner) :=
  let dRunner := {| dr_name := name; dr_decoder := decoder;
                    dr_globals := pluginGlobals; dr_started := false |} in
  do modify (set_self (set_decodersWg (fun n => n + 1))) then
  let dRunner := {| dr_name := dr_name dRunner; dr_decoder := dr_decoder dRunner;
                    dr_globals := dr_globals dRunner; dr_started := true |} in
  do modify (set_self (set_allDecoders (fun l => l ++ [dRunner]))) then
  send dRunner dChan.

(** [for i := 1; i < int(pluginGlobals.PoolSize); i++ { ... }], over the
    values [i] takes. *)
Fixpoint fillPool (wrapper : PluginWrapper) (pluginGlobals : PluginGlobals)
    (indices : list Z) (decoderChan : Chan DecoderRunner)
    : Go State (Chan DecoderRunner) :=
  match indices with
  | [] => ret decoderChan
  | i :: rest =>
      let* created := Create wrapper in
      let* decoder := assert_Decoder created in
      let* decoderChan :=
        makeDRunner pluginGlobals (w_name wrapper +:+ "-" +:+ fmt_d i)
                    decoder decoderChan in
      fillPool wrapper pluginGlobals rest decoderChan
  end.

Definition int64_wrap (z : Z) : Z := (z + 2 ^ 63) `mod` 2 ^ 64 - 2 ^ 63.

(** [if pluginGlobals.PoolSize == 0 { pluginGlobals.PoolSize =
    uint(Globals().DecoderPoolSize) }] *)
Definition default_PoolSize (globals : GlobalConfigStruct) (g : PluginGlobals)
    : PluginGlobals :=
  if decide (PoolSize g = 0)
  then with_PoolSize (uint_wrap (DecoderPoolSize globals)) g
  else g.

(** [pluginType]: the [type] key when it is set, else the section name. *)
Definition resolve_pluginType (sectionName : string) (g : PluginGlobals) : string :=
  if decide (Typ g = "") then sectionName else Typ g.

Definition default_PluginGlobals : PluginGlobals :=
  {| Typ := ""; Ticker := 0; Encoding := ""; Matcher := ""; Signer := "";
     PoolSize := 0;
     Retries := {| MaxDelay := "30s"; Delay := "250ms"; MaxRetries := -1 |} |}.

(** Default Decoders configuration, [defaultDecoderTOML] as
    [toml.Decode] reads it. *)
Definition defaultDecoderTOML : ConfigFile :=
  [ ("JsonDecoder", TTable [("encoding_name", TString "JSON")]);
    ("ProtobufDecoder", TTable [("encoding_name", TString "PROTOCOL_BUFFER")]) ].

(** [configDefault[name]]: a missing key gives the zero [toml.Primitive],
    which decodes like an empty table. *)
Definition ConfigFile_index (doc : ConfigFile) (name : string) : Primitive :=
  default (TTable []) (toml_get name doc).

Section Loader.

(** Modelled from the spec: the wire-encoding enumeration
    [Header_MessageEncoding_value] (name to id) is generated into the
    message package, [NewMatchRunner] and the runners' [Start] belong to
    other files of this package.  The enumeration is a table, the other
    two are given by what they return: the compile error of a matcher
    source (if any), and the error of starting a runner (if any). *)
Variable Header_MessageEncoding_value : gmap string Z.
Variable matcher_error : string → string → option string.
Variable Start : FORunner → option string.

(** [PipelineConfig.AddFilterRunner].  [filtersLock] is free whenever the
    one goroutine followed here asks for it. *)
Definition AddFilterRunner (fRunner : FORunner) : Go State (option string) :=
  do modify (set_self (set_FilterRunners <[fo_name fRunner := fRunner]>)) then
  do modify (set_self (set_filtersWg (fun n => n + 1))) then
  match Start fRunner with
  | Some err =>
      do modify (set_self (set_filtersWg (fun n => n - 1))) then
      ret (Some ("AddFilterRunner '" +:+ fo_name fRunner
                 +:+ "' failed to start: " +:+ err))
  | None =>
      do send_MrChan (fo_matcher fRunner) then
      ret None
  end.

(** [PipelineConfig.RemoveFilterRunner] *)
Definition RemoveFilterRunner (name : string) : Go State bool :=
  let* globals := gets Globals in
  if Stopping globals then ret false
  else
    let* this := gets self in
    match FilterRunners this !! name with
    | Some fRunner =>
        do send_MrChan (fo_matcher fRunner) then
        do close_chan (fo_inChan fRunner) then
        do modify (set_self (set_FilterRunners (delete name))) then
        ret true
    | None => ret false
    end.

(** [regDecoderForHeader]; the result is the error, [None] for nil. *)
Definition regDecoderForHeader (decoderName encodingName : string)
    : Go State (option string) :=
  match Header_MessageEncoding_value !! encodingName with
  | None =>
      ret (Some ("No Header_MessageEncoding named '" +:+ encodingName +:+ "'"))
  | Some encoding =>
      if decide (MAX_HEADER_MESSAGEENCODING < encoding) then
        ret (Some ("Header_MessageEncoding '" +:+ encodingName +:+ "' value '"
                   +:+ fmt_d encoding +:+ "' higher than max '"
                   +:+ fmt_d MAX_HEADER_MESSAGEENCODING +:+ "'"))
      else
        let* available := gets AvailablePlugins in
        match available !! decoderName with
        | None =>
            ret (Some ("No decoder named '" +:+ decoderName
                       +:+ "' registered as a plugin"))
        | Some _ =>
            let* top := gets topHeaderMessageEncoding in
            do (if decide (top < encoding)
                then modify (set_topHeaderMessageEncoding (fun _ => encoding))
                else ret tt) then
            do modify (set_DecodersByEncoding <[encoding := decoderName]>) then
            ret None
        end
  end.

Definition NewMatchRunner (matcher signer : string)
    : Go State (string + MatchRunner) :=
  match matcher_error matcher signer with
  | Some e => ret (inl e)
  | None =>
      let* a := alloc in
      ret (inr {| mr_addr := a; mr_spec := matcher; mr_signer := signer |})
  end.

Definition NewFORunner (name : string) (plugin : PluginInst)
    (pluginGlobals : PluginGlobals) : Go State FORunner :=
  let* inChan := alloc in
  ret {| fo_name := name; fo_plugin := plugin; fo_globals := pluginGlobals;
         fo_tickLength := 0; fo_matcher := None; fo_inChan := inChan |}.

(** The closure [configPlugin] of [loadSection]. *)
Definition configPlugin (plugin : PluginInst) (config : ConfigValue)
    : Go State (PluginInst * option string) :=
  recovering (Plugin_Init plugin config)
             (fun r => (plugin, Some ("Init() panicked: " +:+ r))).

(** [loadSection], the part under [if pluginCategory == "Decoder"]. *)
Definition loadSection_Decoder (wrapper : PluginWrapper) (pluginType : string)
    (pluginGlobals : PluginGlobals) (plugin : PluginInst) : Go State Z :=
  let* err :=
    (if decide (Encoding pluginGlobals = "") then ret None
     else regDecoderForHeader pluginType (Encoding pluginGlobals)) in
  match err with
  | Some err =>
      do log ("Can't register decoder '" +:+ w_name wrapper
              +:+ "' for encoding '" +:+ Encoding pluginGlobals
              +:+ "': " +:+ err) then
      ret 1
  | None =>
      do modify (set_self (set_DecoderWrappers <[w_name wrapper := wrapper]>)) then
      let* globals := gets Globals in
      let pluginGlobals := default_PoolSize globals pluginGlobals in
      let* decoderChan := make_chan (PoolSize pluginGlobals) in
      let* decoder := assert_Decoder (Some plugin) in
      let* decoderChan :=
        makeDRunner pluginGlobals (w_name wrapper +:+ "-0") decoder decoderChan in
      let* decoderChan :=
        fillPool wrapper pluginGlobals
                 (seqZ 1 (int_of_uint (PoolSize pluginGlobals) - 1))
                 decoderChan in
      do modify (set_self (set_decoderChannels <[w_name wrapper := decoderChan]>)) then
      ret 0
  end.

(** [loadSection], the part under [if pluginCategory == "Input"]. *)
Definition loadSection_Input (wrapper : PluginWrapper)
    (pluginGlobals : PluginGlobals) (plugin : PluginInst) : Go State Z :=
  let* input := assert_Input plugin in
  let runner := {| ir_name := w_name wrapper; ir_input := input;
                   ir_globals := pluginGlobals |} in
  do modify (set_self (set_InputRunners <[w_name wrapper := runner]>)) then
  do modify (set_self (set_inputWrappers <[w_name wrapper := wrapper]>)) then
  ret 0.

(** [loadSection], the rest: filters and outputs. *)
Definition loadSection_FilterOutput (wrapper : PluginWrapper)
    (pluginCategory : string) (pluginGlobals : PluginGlobals)
    (plugin : PluginInst) : Go State Z :=
  let* plugin := assert_Plugin plugin in
  let* runner := NewFORunner (w_name wrapper) plugin pluginGlobals in
  let runner := with_name (w_name wrapper) runner in
  let runner :=
    if decide (Ticker pluginGlobals = 0) then runner
    else with_tickLength (int64_wrap (Ticker pluginGlobals * 1000000000)) runner in
  let* compiled :=
    (if decide (Matcher pluginGlobals = "") then ret (inr None)
     else let* r := NewMatchRunner (Matcher pluginGlobals) (Signer pluginGlobals) in
          ret (match r with
               | inl e => inl e
               | inr m => inr (Some m)
               end)) in
  match compiled with
  | inl err =>
      do log ("Can't create message matcher for '" +:+ w_name wrapper
              +:+ "': " +:+ err) then
      ret 1
  | inr matcher =>
      let runner :=
        match matcher with
        | Some _ => with_matcher matcher runner
        | None => runner
        end in
      do (if decide (pluginCategory = "Filter") then
            do (match matcher with
                | Some m =>
                    modify (set_self (set_router (set_fMatchers (fun l => l ++ [m]))))
                | None => ret tt
                end) then
            do modify (set_self (set_FilterRunners <[fo_name runner := runner]>)) then
            modify (set_self (set_filterWrappers <[fo_name runner := wrapper]>))
          else if decide (pluginCategory = "Output") then
            do (match matcher with
                | Some m =>
                    modify (set_self (set_router (set_oMatchers (fun l => l ++ [m]))))
                | None => ret tt
                end) then
            do modify (set_self (set_OutputRunners <[fo_name runner := runner]>)) then
            modify (set_self (set_outputWrappers <[fo_name runner := wrapper]>))
          else ret tt) then
      ret 0
  end.

(** [PipelineConfig.loadSection]; the result is [errcnt]. *)
Definition loadSection (sectionName : string) (configSection : Primitive)
    : Go State Z :=
  let wrapper_name := sectionName in
  match decode_PluginGlobals configSection default_PluginGlobals with
  | inl err =>
      do log ("Unable to decode config for plugin: " +:+ wrapper_name
              +:+ ", error: " +:+ err) then
      ret 1
  | inr pluginGlobals =>
      let pluginType := resolve_pluginType sectionName pluginGlobals in
      let* available := gets AvailablePlugins in
      match available !! pluginType with
      | None =>
          do log ("No such plugin: " +:+ wrapper_name) then
          ret 1
      | Some creator =>
          let* plugin := call_factory creator in
          let* loaded := LoadConfigStruct configSection plugin in
          match loaded with
          | inl err =>
              do log ("Can't load config for " +:+ sectionName +:+ " '"
                      +:+ wrapper_name +:+ "': " +:+ err) then
              ret 1
          | inr config =>
              let wrapper := {| w_name := wrapper_name;
                                configCreator := fun _ => config;
                                pluginCreator := creator |} in
              let* (plugin, err) := configPlugin plugin config in
              match err with
              | Some err =>
                  do log ("Initialization failed for '" +:+ sectionName
                          +:+ "': " +:+ err) then
                  ret 1
              | None =>
                  match PluginTypeRegex_FindStringSubmatch pluginType with
                  | _ :: pluginCategory :: _ =>
                      if decide (pluginCategory = "Decoder") then
                        loadSection_Decoder wrapper pluginType pluginGlobals plugin
                      else if decide (pluginCategory = "Input") then
                        loadSection_Input wrapper pluginGlobals plugin
                      else
                        loadSection_FilterOutput wrapper pluginCategory
                                                 pluginGlobals plugin
                  | _ =>
                      do log ("Type doesn't contain valid plugin name: "
                              +:+ pluginType) then
                      ret 1
                  end
              end
          end
      end
  end.

(** [for name, conf := range configFile { errcnt += self.loadSection(name, conf) }] *)
Fixpoint loadSections (configFile : ConfigFile) (errcnt : Z) : Go State Z :=
  match configFile with
  | [] => ret errcnt
  | (name, conf) :: rest =>
      let* n := loadSection name conf in
      loadSections rest (uint_wrap (errcnt + n))
  end.

(** [if _, ok := dWrappers[name]; !ok { errcnt += self.loadSection(...) }];
    [dWrappers] is the map [self.DecoderWrappers] itself, not a copy. *)
Definition loadDefault (name : string) (errcnt : Z) : Go State Z :=
  let* this := gets self in
  match DecoderWrappers this !! name with
  | Some _ => ret errcnt
  | None =>
      let* n := loadSection name (ConfigFile_index defaultDecoderTOML name) in
      ret (uint_wrap (errcnt + n))
  end.

(** [PipelineConfig.LoadFromConfigFile], from what [toml.DecodeFile] made
    of the file: an error, or the document. *)
Definition LoadFromConfigFile (decoded : string + ConfigFile)
    : Go State (option string) :=
  match decoded with
  | inl err => ret (Some ("Error decoding config file: " +:+ err))
  | inr configFile =>
      let* errcnt := loadSections configFile 0 in
      let* errcnt := loadDefault "JsonDecoder" errcnt in
      let* errcnt := loadDefault "ProtobufDecoder" errcnt in
      if decide (errcnt = 0) then ret None
      else ret (Some (fmt_d errcnt +:+ " errors loading plugins"))
  end.

End Loader.

(** ** The registry that [init] builds *)

(** Modelled from the spec: the plugin types registered by [init] are
    implemented in other files of the package.  [stock] is a type that
    meets the plugin contract in the plainest way: no config struct of its
    own, an [Init] that accepts its config, and the interface of its
    category. *)
Definition stock (name : string) (isDecoder isInput : bool) : PluginType :=
  {| pt_name := name; pt_ConfigStruct := NoConfigStruct;
     pt_Init := Some (fun _ _ => InitOk);
     pt_isDecoder := isDecoder; pt_isInput := isInput |}.

(** [func() interface{} { return new(T) }] *)
Definition new_plugin (name : string) (isDecoder isInput : bool) : Factory :=
  FactoryNew (stock name isDecoder isInput).

Definition init (s : State) : State :=
  let s := RegisterPlugin "UdpInput" (new_plugin "UdpInput" false true) s in
  let s := RegisterPlugin "TcpInput" (new_plugin "TcpInput" false true) s in
  let s := RegisterPlugin "JsonDecoder" (new_plugin "JsonDecoder" true false) s in
  let s := RegisterPlugin "ProtobufDecoder" (new_plugin "ProtobufDecoder" true false) s in
  let s := RegisterPlugin "StatsdInput" (new_plugin "StatsdInput" false true) s in
  let s := RegisterPlugin "LogOutput" (new_plugin "LogOutput" false false) s in
  let s := RegisterPlugin "FileOutput" (new_plugin "FileOutput" false false) s in
  let s := RegisterPlugin "WhisperOutput" (new_plugin "WhisperOutput" false false) s in
  let s := RegisterPlugin "LogfileInput" (new_plugin "LogfileInput" false true) s in
  let s := RegisterPlugin "TcpOutput" (new_plugin "TcpOutput" false false) s in
  let s := RegisterPlugin "StatFilter" (new_plugin "StatFilter" false false) s in
  let s := RegisterPlugin "SandboxFilter" (new_plugin "SandboxFilter" false false) s in
  let s := RegisterPlugin "LoglineDecoder" (new_plugin "LoglineDecoder" true false) s in
  let s := RegisterPlugin "CounterFilter" (new_plugin "CounterFilter" false false) s in
  let s := RegisterPlugin "SandboxManagerFilter" (new_plugin "SandboxManagerFilter" false false) s in
  RegisterPlugin "DashboardOutput" (new_plugin "DashboardOutput" false false) s.

(** Modelled from the spec: the defaults of [DefaultGlobals] (another file
    of the package) and the two names of the wire-encoding enumeration. *)
Definition DefaultGlobals : GlobalConfigStruct :=
  {| g_PoolSize := 100; DecoderPoolSize := 4; MaxMsgLoops := 4;
     Stopping := false |}.

Definition wire_encodings : gmap string Z :=
  <["PROTOCOL_BUFFER" := 0]> (<["JSON" := 1]> ∅).

(** The process right after start-up: the package variables at their
    initial values, [init] run, and a new [PipelineConfig]. *)
Definition startup (globals : GlobalConfigStruct) (host : string) (process : Z)
    : State :=
  init {| AvailablePlugins := ∅; DecodersByEncoding := ∅;
          topHeaderMessageEncoding := 0; Globals := globals; next_addr := 0;
          closed_chans := ∅;
          self := NewPipelineConfig globals host process |}.

(** ** Sample values for the statements below *)

Definition stamp (clock : Clock) (this : PipelineConfig) (m : Message) : Message :=
  SetPid (pid this) (SetHostname (hostname this)
    (SetUuid (new_uuid clock) (SetTimestamp (now_ns clock) m))).

Definition pack0 : Pack :=
  {| Msg := {| Timestamp := 0; Uuid := ""; Hostname := ""; Pid := 0; Payload := "" |};
     RefCount := 0; MsgLoopCount := 0; RecycleChan := InjectPool |}.

Definition clock0 : Clock :=
  {| now_ns := 1357000000000000000; new_uuid := "0123456789abcdef" |}.

(** A started process whose inject pool holds two idle packs. *)
Definition running : State :=
  set_self (set_injectRecycleChan (fun c => MkChan (chan_cap c) [pack0; pack0]))
           (startup DefaultGlobals "host" 42).

Definition filterF : FORunner :=
  {| fo_name := "F";
     fo_plugin := {| inst_type := stock "CounterFilter" false false;
                     inst_addr := 100; inst_config := Some (CfgMap []) |};
     fo_globals := default_PluginGlobals; fo_tickLength := 0;
     fo_matcher := Some {| mr_addr := 101; mr_spec := "TRUE"; mr_signer := "" |};
     fo_inChan := 102 |}.

(** [s] ends in [suffix]. *)
Definition ends_with (suffix s : string) : Prop := ∃ pre, s = pre +:+ suffix.

Fixpoint has_newline (s : string) : bool :=
  match s with
  | EmptyString => false
  | String c rest => if decide (c = newline) then true else has_newline rest
  end.


(** A plugin type whose [Init] panics, and two wrappers: one whose factory
    panics, one that makes plugins of the panicking type. *)
Definition CrashDecoder : PluginType :=
  {| pt_name := "CrashDecoder"; pt_ConfigStruct := NoConfigStruct;
     pt_Init := Some (fun _ _ => InitPanics "boom");
     pt_isDecoder := true; pt_isInput := false |}.

Definition crashing_factory_wrapper : PluginWrapper :=
  {| w_name := "A"; configCreator := fun _ => CfgMap [];
     pluginCreator := FactoryPanics "no memory" |}.

Definition crashing_Init_wrapper : PluginWrapper :=
  {| w_name := "B"; configCreator := fun _ => CfgMap [];
     pluginCreator := FactoryNew CrashDecoder |}.

(** ** What a filled decoder pool looks like *)

(** The plugin that [Create] leaves at address [a]: of the wrapper's type,
    holding the wrapper's config when its [Init] accepted it. *)
Definition minted (w : PluginWrapper) (t : PluginType) (a : nat) : PluginInst :=
  {| inst_type := t; inst_addr := a;
     inst_config :=
       match pt_Init t with
       | Some init =>
           match init a (configCreator w tt) with
           | InitOk => Some (configCreator w tt)
           | _ => None
           end
       | None => None
       end |}.

(** The runners the pool loop makes for the loop values [indices], the
    first of their plugins at address [a]. *)
Fixpoint pool_runners (w : PluginWrapper) (g : PluginGlobals) (t : PluginType)
    (a : nat) (indices : list Z) : list DecoderRunner :=
  match indices with
  | [] => []
  | i :: rest =>
      {| dr_name := w_name w +:+ "-" +:+ fmt_d i; dr_decoder := minted w t a;
         dr_globals := g; dr_started := true |}
      :: pool_runners w g t (S a) rest
  end.

(** The state once [made] more decoder runners were started, their plugins
    taken from fresh addresses. *)
Definition runners_started (made : list DecoderRunner) (s : State) : State :=
  set_next_addr (fun a => (a + length made)%nat)
    (set_self (fun c => set_allDecoders (fun l => l ++ made)
                          (set_decodersWg (fun n => n + Z.of_nat (length made)) c))
              s).

(** The encoding table after [decoderName] was bound to [id]. *)
Definition register_encoding (id : Z) (decoderName : string) (s : State) : State :=
  set_DecodersByEncoding <[id := decoderName]>
    (set_topHeaderMessageEncoding (fun top => top `max` id) s).

(** The first runner of a pool, around the plugin the section itself
    made and initialized. *)
Definition first_runner (w : PluginWrapper) (g : PluginGlobals)
    (plugin : PluginInst) : DecoderRunner :=
  {| dr_name := w_name w +:+ "-0"; dr_decoder := plugin; dr_globals := g;
     dr_started := true |}.

(** The state once a decoder section is installed: the wrapper kept, the
    runners [first :: rest] started and sitting in a channel of capacity
    [cap] under the section's name. *)
Definition decoder_installed (w : PluginWrapper) (cap : Z) (first : DecoderRunner)
    (rest : list DecoderRunner) (s : State) : State :=
  set_self (set_decoderChannels <[w_name w := MkChan cap (first :: rest)]>)
    (runners_started rest
       (set_self (set_allDecoders (fun l => l ++ [first]))
          (set_self (set_decodersWg (fun n => n + 1))
             (set_self (set_DecoderWrappers <[w_name w := w]>) s)))).

(** What every returning [loadSection name] keeps: the registry, the
    globals and the wrappers of the other decoders stay as they are, and
    the section logs exactly one line when it counts an error and none when
    it does not. *)
Definition section_frame (name : string) (n : Z) (s s' : State) : Prop :=
  AvailablePlugins s' = AvailablePlugins s ∧
  Globals s' = Globals s ∧
  (∀ k, k ≠ name →
     DecoderWrappers (self s') !! k = DecoderWrappers (self s) !! k) ∧
  (n = 0 ∧ logMsgs (self s') = logMsgs (self s)
   ∨ n = 1 ∧ ∃ msg, logMsgs (self s') = logMsgs (self s) ++ [msg]).

(** Scenario S3 of the specification: one section [Bad] of an unknown
    type. *)
Definition config_Bad : ConfigFile :=
  [("Bad", TTable [("type", TString "NoSuchThing")])].

(** Scenario S1: a decoder section [A] of type [JsonDecoder] bound to the
    encoding [JSON]. *)
Definition section_A : Primitive :=
  TTable [("type", TString "JsonDecoder"); ("encoding_name", TString "JSON")].

(** A decoder type that meets the plugin contract without surprises: no
    config struct of its own, an [Init] that accepts what it is given, and
    the [Decoder] interface. *)
Definition plain_decoder (t : PluginType) : Prop :=
  pt_ConfigStruct t = NoConfigStruct ∧
  (∃ init, pt_Init t = Some init ∧ ∀ a c, init a c = InitOk) ∧
  pt_isDecoder t = true.

(** A section of the default document: nothing but an encoding name; the
    globals it decodes to; and the wrapper the loader builds for it. *)
Definition encoding_section (encodingName : string) : Primitive :=
  TTable [("encoding_name", TString encodingName)].

Definition encoding_globals (encodingName : string) : PluginGlobals :=
  {| Typ := ""; Ticker := 0; Encoding := encodingName; Matcher := ""; Signer := "";
     PoolSize := 0;
     Retries := {| MaxDelay := "30s"; Delay := "250ms"; MaxRetries := -1 |} |}.

Definition encoding_wrapper (name encodingName : string) (t : PluginType)
    : PluginWrapper :=
  {| w_name := name;
     configCreator := fun _ => CfgMap [("encoding_name", TString encodingName)];
     pluginCreator := FactoryNew t |}.

(** The state after a section of the default document was loaded into [s]. *)
Definition default_loaded (name encodingName : string) (t : PluginType) (id : Z)
    (s : State) : State :=
  let w := encoding_wrapper name encodingName t in
  let g := default_PoolSize (Globals s) (encoding_globals encodingName) in
  decoder_installed w (PoolSize g)
    (first_runner w g {| inst_type := t; inst_addr := next_addr s;
                         inst_config := Some (configCreator w tt) |})
    (pool_runners w g t (S (next_addr s)) (seqZ 1 (PoolSize g - 1)))
    (register_encoding id name (set_next_addr S s)).

(** ** Lookups of the plugin helper *)


(** [PipelineConfig.Filter] *)
Definition Filter (name : string) : Go State (option FORunner) :=
  let* this := gets self in
  ret (FilterRunners this !! name).

(** A process whose inject pool is empty while its input pool holds an
    idle pack. *)
Definition inject_starved : State :=
  set_self (fun c =>
      {| InputRunners := InputRunners c; inputWrappers := inputWrappers c;
         DecoderWrappers := DecoderWrappers c; FilterRunners := FilterRunners c;
         filterWrappers := filterWrappers c; OutputRunners := OutputRunners c;
         outputWrappers := outputWrappers c; router := router c;
         inputRecycleChan := MkChan (chan_cap (inputRecycleChan c)) [pack0];
         injectRecycleChan := injectRecycleChan c; logMsgs := logMsgs c;
         filtersWg := filtersWg c; decodersWg := decodersWg c;
         decoderChannels := decoderChannels c; allDecoders := allDecoders c;
         hostname := hostname c; pid := pid c |})
    (startup DefaultGlobals "host" 42).

(** A plugin whose [ConfigStruct] panics. *)
Definition broken_config_plugin : PluginInst :=
  {| inst_type := {| pt_name := "BrokenInput";
                     pt_ConfigStruct := ConfigStructPanics "nil map";
                     pt_Init := Some (fun _ _ => InitOk);
                     pt_isDecoder := false; pt_isInput := true |};
     inst_addr := 7; inst_config := None |}.

(** An input type whose [Init] returns an error, and a registry that has
    it next to a factory that panics. *)
Definition FailingInput : PluginType :=
  {| pt_name := "FailingInput"; pt_ConfigStruct := NoConfigStruct;
     pt_Init := Some (fun _ _ => InitError "address in use");
     pt_isDecoder := false; pt_isInput := true |}.

Definition troubled : State :=
  RegisterPlugin "CrashInput" (FactoryPanics "out of memory")
    (RegisterPlugin "FailingInput" (FactoryNew FailingInput)
       (startup DefaultGlobals "host" 42)).



(** A matcher compiler that accepts [TRUE] and nothing else. *)
Definition only_TRUE (matcher signer : string) : option string :=
  if decide (matcher = "TRUE") then None else Some ("syntax error: " +:+ matcher).






(** The encoding table is in order: every id bound in it is at most
    [topHeaderMessageEncoding] and at most [MAX_HEADER_MESSAGEENCODING],
    and is bound to a registered plugin name. *)
Definition encoding_table_ok (s : State) : Prop :=
  ∀ id d, DecodersByEncoding s !! id = Some d →
    id ≤ topHeaderMessageEncoding s ∧ id ≤ MAX_HEADER_MESSAGEENCODING
    ∧ is_Some (AvailablePlugins s !! d).

(** One step of the table: nothing, or one binding of a registered name to
    an id within the cap, with [topHeaderMessageEncoding] raised to it. *)
Definition table_step (s s' : State) : Prop :=
  AvailablePlugins s' = AvailablePlugins s ∧
  (DecodersByEncoding s' = DecodersByEncoding s
   ∧ topHeaderMessageEncoding s' = topHeaderMessageEncoding s
   ∨ ∃ id d, id ≤ MAX_HEADER_MESSAGEENCODING
       ∧ is_Some (AvailablePlugins s !! d)
       ∧ DecodersByEncoding s' = <[id := d]> (DecodersByEncoding s)
       ∧ topHeaderMessageEncoding s' = topHeaderMessageEncoding s `max` id).

(** * Properties *)

Ltac go_unfold :=
  unfold bind, ret, gets, modify, panic, block, get, recovering in *.

(** ** PipelinePack *)

(** Below the wrap-around the guard is the mathematical one: nothing is
    returned when [k + 1] exceeds [MaxMsgLoops], and otherwise the head of
    the inject pool is stamped and returned, the input pool untouched. *)
Lemma PipelinePack_in_range clock k s :
  0 ≤ k → k + 1 < uint_modulus →
  (MaxMsgLoops (Globals s) < k + 1 →
     PipelinePack clock k s = Returned None s) ∧
  (k + 1 ≤ MaxMsgLoops (Globals s) →
     ∀ pack rest, chan_buf (injectRecycleChan (self s)) = pack :: rest →
     PipelinePack clock k s =
       Returned (Some {| Msg := stamp clock (self s) (Msg pack); RefCount := 1;
                         MsgLoopCount := k + 1;
                         RecycleChan := RecycleChan pack |})
                (set_self (set_injectRecycleChan (fun c => MkChan (chan_cap c) rest)) s)).
Proof.
  intros Hk Hk'.
  assert (Hw : uint_wrap (k + 1) = k + 1).
  { unfold uint_wrap. apply Z.mod_small. lia. }
  split.
  - intros Hmax. unfold PipelinePack. go_unfold. rewrite Hw.
    destruct (decide _); [done | lia].
  - intros Hmax pack rest Hbuf. unfold PipelinePack. go_unfold. rewrite Hw.
    destruct (decide _); [lia |].
    unfold chan_recv. rewrite Hbuf. reflexivity.
Qed.

(** C10: the loop count is incremented in [uint] arithmetic, so at
    [2^64 - 1] it wraps to 0, the guard does not trip although the
    mathematical [k + 1] exceeds [MaxMsgLoops], and a pack is taken from the
    inject pool and returned with [MsgLoopCount = 0]. *)
Theorem PipelinePack_wraps_to_zero clock s pack rest :
  is_uint (MaxMsgLoops (Globals s)) →
  chan_buf (injectRecycleChan (self s)) = pack :: rest →
  MaxMsgLoops (Globals s) < (uint_modulus - 1) + 1 ∧
  uint_wrap ((uint_modulus - 1) + 1) = 0 ∧
  PipelinePack clock (uint_modulus - 1) s =
    Returned (Some {| Msg := stamp clock (self s) (Msg pack); RefCount := 1;
                      MsgLoopCount := 0; RecycleChan := RecycleChan pack |})
             (set_self (set_injectRecycleChan (fun c => MkChan (chan_cap c) rest)) s) ∧
  inputRecycleChan (self (set_self (set_injectRecycleChan
      (fun c => MkChan (chan_cap c) rest)) s)) = inputRecycleChan (self s).
Proof.
  intros [Hlo Hhi] Hbuf.
  assert (Hw : uint_wrap (uint_modulus - 1 + 1) = 0) by reflexivity.
  split; [lia |]. split; [exact Hw |]. split; [| reflexivity].
  unfold PipelinePack. go_unfold. rewrite Hw.
  destruct (decide _); [lia |].
  unfold chan_recv. rewrite Hbuf. reflexivity.
Qed.

(** C10 on the sample process [running]. *)
Lemma PipelinePack_wraps_to_zero_witness :
  is_uint (MaxMsgLoops (Globals running)) ∧
  chan_buf (injectRecycleChan (self running)) = [pack0; pack0] ∧
  PipelinePack clock0 (uint_modulus - 1) running =
    Returned (Some {| Msg := stamp clock0 (self running) (Msg pack0); RefCount := 1;
                      MsgLoopCount := 0; RecycleChan := RecycleChan pack0 |})
             (set_self (set_injectRecycleChan (fun c => MkChan (chan_cap c) [pack0]))
                       running).
Proof.
  assert (H1 : is_uint (MaxMsgLoops (Globals running))) by (split; vm_compute; congruence).
  assert (H2 : chan_buf (injectRecycleChan (self running)) = [pack0; pack0])
    by reflexivity.
  split; [exact H1 |]. split; [exact H2 |].
  exact (proj1 (proj2 (proj2 (PipelinePack_wraps_to_zero clock0 running pack0 [pack0] H1 H2)))).
Defined.

(** C1, at the loop count [2^64 - 1]: [MaxMsgLoops] is 4, the provided
    count is far above it, and still the call takes a pack from the inject
    pool and returns it, with [MsgLoopCount = 0]. *)
Theorem PipelinePack_overflow_returns_pack :
  MaxMsgLoops (Globals running) = 4 ∧
  MaxMsgLoops (Globals running) < (2 ^ 64 - 1) + 1 ∧
  PipelinePack clock0 (2 ^ 64 - 1) running =
    Returned (Some {| Msg := {| Timestamp := 1357000000000000000;
                                Uuid := "0123456789abcdef"; Hostname := "host";
                                Pid := 42; Payload := "" |};
                      RefCount := 1; MsgLoopCount := 0; RecycleChan := InjectPool |})
             (set_self (set_injectRecycleChan (fun c => MkChan (chan_cap c) [pack0]))
                       running).
Proof.
  split; [reflexivity |]. split; [vm_compute; reflexivity |].
  vm_compute. reflexivity.
Qed.

(** ** Dynamic filter add and remove *)

(** The two ways [AddFilterRunner] ends. *)
Lemma AddFilterRunner_start_error Start fRunner err s :
  Start fRunner = Some err →
  AddFilterRunner Start fRunner s =
    Returned (Some ("AddFilterRunner '" +:+ fo_name fRunner
                    +:+ "' failed to start: " +:+ err))
             (set_self (set_filtersWg (fun n => n + 1 - 1))
                (set_self (set_FilterRunners <[fo_name fRunner := fRunner]>) s)).
Proof.
  intros H. unfold AddFilterRunner. go_unfold. rewrite H.
  destruct s as [a b c d e f this]; destruct this; reflexivity.
Qed.

Lemma AddFilterRunner_started Start fRunner s :
  Start fRunner = None →
  AddFilterRunner Start fRunner s =
    Returned None
      (set_self (set_router (set_mrChan (fun q => q ++ [fo_matcher fRunner])))
         (set_self (set_filtersWg (fun n => n + 1))
            (set_self (set_FilterRunners <[fo_name fRunner := fRunner]>) s))).
Proof.
  intros H. unfold AddFilterRunner, send_MrChan. go_unfold. rewrite H. reflexivity.
Qed.

(** C2, at a runner whose [Start] fails: the error is returned and the
    waitgroup counter is back at its value, but the runner stays in
    [FilterRunners] under its name. *)
Theorem AddFilterRunner_failed_start_leaves_runner :
  let s := startup DefaultGlobals "host" 42 in
  let s' := set_self (set_FilterRunners <["F" := filterF]>) s in
  FilterRunners (self s) !! "F" = None ∧
  AddFilterRunner (fun _ => Some "not a filter") filterF s =
    Returned (Some "AddFilterRunner 'F' failed to start: not a filter") s' ∧
  filtersWg (self s') = filtersWg (self s) ∧
  FilterRunners (self s') !! "F" = Some filterF ∧
  FilterRunners (self s') ≠ FilterRunners (self s).
Proof.
  cbv zeta.
  assert (Hnone : FilterRunners (self (startup DefaultGlobals "host" 42)) !! "F"
                  = None) by (vm_compute; reflexivity).
  assert (Hsome : FilterRunners (self (set_self (set_FilterRunners <["F" := filterF]>)
                    (startup DefaultGlobals "host" 42))) !! "F" = Some filterF)
    by apply lookup_insert_eq.
  split; [exact Hnone |]. split; [vm_compute; reflexivity |].
  split; [vm_compute; reflexivity |]. split; [exact Hsome |].
  intros Heq. rewrite Heq, Hnone in Hsome. discriminate.
Qed.



(** ** The decoder-encoding table *)

(** C3, as stated, fails on an enumeration with an id of exactly 256: the
    id is not below 256, and the decoder is registered for it all the same. *)
Lemma regDecoderForHeader_accepts_max :
  let enc : gmap string Z := {["CUSTOM" := 256]} in
  let s := startup DefaultGlobals "host" 42 in
  enc !! "CUSTOM" = Some 256 ∧ 256 ≥ 256 ∧
  is_Some (AvailablePlugins s !! "JsonDecoder") ∧
  regDecoderForHeader enc "JsonDecoder" "CUSTOM" s =
    Returned None
      (set_DecodersByEncoding <[256 := "JsonDecoder"]>
         (set_topHeaderMessageEncoding (fun _ => 256) s)).
Proof.
  cbv zeta. split; [vm_compute; reflexivity |]. split; [lia |].
  split; [vm_compute; eauto |]. vm_compute. reflexivity.
Qed.

(** C3, amended: [regDecoderForHeader] returns an error exactly when the
    encoding name is not in the enumeration, or its id is greater than 256,
    or the decoder name is not registered; an error leaves the table and
    [topHeaderMessageEncoding] as they were, and success records the
    decoder under the id and raises [topHeaderMessageEncoding] to the
    maximum of its old value and the id. *)
Theorem regDecoderForHeader_spec (enc : gmap string Z) decoderName encodingName s :
  let rejected :=
    enc !! encodingName = None
    ∨ (∃ id, enc !! encodingName = Some id ∧ MAX_HEADER_MESSAGEENCODING < id)
    ∨ AvailablePlugins s !! decoderName = None in
  (rejected →
     ∃ err, regDecoderForHeader enc decoderName encodingName s = Returned (Some err) s)
  ∧ (¬ rejected →
     ∃ id, enc !! encodingName = Some id ∧
       regDecoderForHeader enc decoderName encodingName s =
         Returned None
           (set_DecodersByEncoding <[id := decoderName]>
              (set_topHeaderMessageEncoding (fun top => top `max` id) s))).
Proof.
  cbv zeta. unfold regDecoderForHeader. go_unfold.
  destruct (enc !! encodingName) as [id |] eqn:Henc.
  2: { split; [intros _; eexists; reflexivity |].
       intros Hn. exfalso. apply Hn. by left. }
  destruct (decide (MAX_HEADER_MESSAGEENCODING < id)) as [Hbig | Hsmall].
  { split; [intros _; eexists; reflexivity |].
    intros Hn. exfalso. apply Hn. right. left. eauto. }
  destruct (AvailablePlugins s !! decoderName) as [f |] eqn:Hreg.
  2: { split; [intros _; eexists; reflexivity |].
       intros Hn. exfalso. apply Hn. by right; right. }
  split.
  - intros [H | [(id' & H & Hlt) | H]]; [discriminate | | discriminate].
    injection H as <-. contradiction.
  - intros _. exists id. split; [reflexivity |].
    destruct s as [av dec top g na cl this]. simpl in *.
    destruct (decide (top < id)); simpl; unfold set_DecodersByEncoding,
      set_topHeaderMessageEncoding; simpl; do 2 f_equal; lia.
Qed.

(** C3 on the start-up registry: [JSON] is accepted for [JsonDecoder], the
    unknown name [XML] is refused. *)
Lemma regDecoderForHeader_spec_witness :
  let s := startup DefaultGlobals "host" 42 in
  regDecoderForHeader wire_encodings "JsonDecoder" "JSON" s =
    Returned None (register_encoding 1 "JsonDecoder" s) ∧
  ∃ err, regDecoderForHeader wire_encodings "JsonDecoder" "XML" s
         = Returned (Some err) s.
Proof.
  cbv zeta. split.
  - destruct (proj2 (regDecoderForHeader_spec wire_encodings "JsonDecoder" "JSON"
                       (startup DefaultGlobals "host" 42))) as (id & Hid & Hrun).
    + intros [H | [(id & H & Hlt) | H]].
      * vm_compute in H. discriminate.
      * assert (id = 1) as -> by (vm_compute in H; congruence).
        unfold MAX_HEADER_MESSAGEENCODING in Hlt. lia.
      * vm_compute in H. discriminate.
    + assert (id = 1) as -> by (vm_compute in Hid; congruence). exact Hrun.
  - apply (proj1 (regDecoderForHeader_spec wire_encodings "JsonDecoder" "XML"
                    (startup DefaultGlobals "host" 42))).
    left. vm_compute. reflexivity.
Defined.

(** ** The plugin wrapper *)

(** C7: [CreateWithError] calls the plugin factory and then [Init] with the
    value of the config factory; it never panics: a panic of the factory or
    of [Init] comes back as a nil plugin and the error
    ['<name>' Init() panicked: <reason>]. *)
Theorem CreateWithError_spec (w : PluginWrapper) (s : State) :
  (∀ reason s', CreateWithError w s ≠ Panicked reason s') ∧
  (∀ reason, pluginCreator w = FactoryPanics reason →
     CreateWithError w s =
       Returned (None, Some ("'" +:+ w_name w +:+ "' Init() panicked: " +:+ reason)) s) ∧
  (∀ t init, pluginCreator w = FactoryNew t → pt_Init t = Some init →
     let made := {| inst_type := t; inst_addr := next_addr s; inst_config := None |} in
     let s1 := set_next_addr S s in
     match init (next_addr s) (configCreator w tt) with
     | InitOk =>
         CreateWithError w s =
           Returned (Some {| inst_type := t; inst_addr := next_addr s;
                             inst_config := Some (configCreator w tt) |}, None) s1
     | InitError e => CreateWithError w s = Returned (Some made, Some e) s1
     | InitPanics reason =>
         CreateWithError w s =
           Returned (None, Some ("'" +:+ w_name w +:+ "' Init() panicked: "
                                 +:+ reason)) s1
     end).
Proof.
  split; [| split].
  - intros reason s'. unfold CreateWithError, recovering.
    destruct (bind _ _ s); discriminate.
  - intros reason H. unfold CreateWithError, call_factory. rewrite H. reflexivity.
  - intros t init H Hinit. cbv zeta.
    unfold CreateWithError, call_factory, Plugin_Init, alloc. rewrite H.
    go_unfold. simpl. rewrite Hinit.
    destruct (init _ _); reflexivity.
Qed.

(** C7 on a wrapper whose factory panics and on one whose [Init] panics. *)
Lemma CreateWithError_spec_witness :
  let s := startup DefaultGlobals "host" 42 in
  CreateWithError crashing_factory_wrapper s =
    Returned (None, Some "'A' Init() panicked: no memory") s ∧
  CreateWithError crashing_Init_wrapper s =
    Returned (None, Some "'B' Init() panicked: boom") (set_next_addr S s).
Proof.
  cbv zeta. split.
  - destruct (CreateWithError_spec crashing_factory_wrapper
                (startup DefaultGlobals "host" 42)) as (_ & H & _).
    exact (H "no memory" eq_refl).
  - destruct (CreateWithError_spec crashing_Init_wrapper
                (startup DefaultGlobals "host" 42)) as (_ & _ & H).
    exact (H CrashDecoder (fun _ _ => InitPanics "boom") eq_refl eq_refl).
Defined.

(** ** The plugin type pattern *)

Lemma match_group_Some s g :
  match_group s = Some g ↔ s = g ∧ g ∈ PluginTypeAlternatives.
Proof.
  unfold match_group, PluginTypeAlternatives. split.
  - intros H. rewrite !filter_cons, filter_nil in H.
    repeat case_decide; simpl in H; simplify_eq; (split; [done | set_solver]).
  - intros [-> Hin]. rewrite !filter_cons, filter_nil.
    set_unfold. destruct Hin as [-> | [-> | [-> | [-> | []]]]]; reflexivity.
Qed.

Lemma match_dot_star_group_sound s g :
  match_dot_star_group s = Some g →
  g ∈ PluginTypeAlternatives ∧ ∃ pre, s = pre +:+ g ∧ has_newline pre = false.
Proof.
  revert g. induction s as [| c rest IH]; intros g; simpl.
  - intros [-> Hin]%match_group_Some. split; [done |]. by exists "".
  - destruct (decide (c = newline)) as [-> | Hc].
    + intros [<- Hin]%match_group_Some. split; [done |]. by exists "".
    + destruct (match_dot_star_group rest) as [g' |] eqn:Hrest.
      * intros [= <-]. destruct (IH g' eq_refl) as (Hin & pre & -> & Hpre).
        split; [done |]. exists (String c pre). split; [done |].
        simpl. by destruct (decide (c = newline)).
      * intros [<- Hin]%match_group_Some. split; [done |]. by exists "".
Qed.

Lemma match_dot_star_group_complete pre g :
  g ∈ PluginTypeAlternatives → has_newline pre = false →
  match_dot_star_group (pre +:+ g) = Some g.
Proof.
  intros Hin. induction pre as [| c pre IH]; simpl.
  - intros _. unfold PluginTypeAlternatives in Hin. set_unfold.
    destruct Hin as [-> | [-> | [-> | [-> | []]]]]; reflexivity.
  - destruct (decide (c = newline)); [discriminate |].
    intros Hpre. by rewrite (IH Hpre).
Qed.



(** ** The decoder pool *)

Ltac st_simpl :=
  lazy beta iota delta [set_fMatchers set_oMatchers set_mrChan
    set_InputRunners set_inputWrappers set_DecoderWrappers set_FilterRunners
    set_filterWrappers set_OutputRunners set_outputWrappers set_router
    set_injectRecycleChan set_logMsgs set_filtersWg set_decodersWg
    set_decoderChannels set_allDecoders set_AvailablePlugins
    set_DecodersByEncoding set_topHeaderMessageEncoding set_next_addr
    set_closed_chans set_self runners_started fMatchers oMatchers mrChan
    InputRunners inputWrappers DecoderWrappers FilterRunners filterWrappers
    OutputRunners outputWrappers router injectRecycleChan logMsgs filtersWg
    decodersWg decoderChannels allDecoders AvailablePlugins
    DecodersByEncoding topHeaderMessageEncoding next_addr closed_chans self]
    in *;
  cbn [length] in *.

Lemma Create_eval w t s :
  pluginCreator w = FactoryNew t →
  Create w s =
    Returned (match pt_Init t with
              | Some init =>
                  match init (next_addr s) (configCreator w tt) with
                  | InitPanics _ => None
                  | _ => Some (minted w t (next_addr s))
                  end
              | None => None
              end)
             (set_next_addr S s).
Proof.
  intros H. unfold Create, CreateWithError, call_factory, Plugin_Init, alloc, minted.
  rewrite H. go_unfold. simpl.
  destruct (pt_Init t) as [init |]; [| reflexivity].
  destruct (init _ _); reflexivity.
Qed.

Lemma runners_started_nil s : runners_started [] s = s.
Proof.
  destruct s as [av dec top g na cl this]; destruct this.
  st_simpl. rewrite Nat.add_0_r, Z.add_0_r, app_nil_r. reflexivity.
Qed.

Lemma runners_started_cons r rs s :
  runners_started rs
    (set_self (set_allDecoders (fun l => l ++ [r]))
       (set_self (set_decodersWg (fun n => n + 1)) (set_next_addr S s)))
  = runners_started (r :: rs) s.
Proof.
  destruct s as [av dec top g na cl this]; destruct this.
  st_simpl. f_equal; [lia |]. f_equal; [lia |]. by rewrite <- app_assoc.
Qed.

Lemma makeDRunner_eval g name decoder ch s :
  makeDRunner g name decoder ch s =
    let r := {| dr_name := name; dr_decoder := decoder; dr_globals := g;
                dr_started := true |} in
    if decide (Z.of_nat (length (chan_buf ch)) < chan_cap ch)
    then Returned (MkChan (chan_cap ch) (chan_buf ch ++ [r]))
                  (set_self (set_allDecoders (fun l => l ++ [r]))
                     (set_self (set_decodersWg (fun n => n + 1)) s))
    else Blocked.
Proof.
  unfold makeDRunner, send, chan_send. go_unfold. cbn [dr_name dr_decoder dr_globals].
  destruct (decide _); reflexivity.
Qed.

(** When the pool loop comes back, it has made exactly one started runner
    per loop value, each around a plugin from a fresh address, appended
    them to the channel and to [allDecoders], and touched nothing else. *)
Lemma fillPool_returned w g t indices ch s ch' s' :
  pluginCreator w = FactoryNew t →
  fillPool w g indices ch s = Returned ch' s' →
  let made := pool_runners w g t (next_addr s) indices in
  ch' = MkChan (chan_cap ch) (chan_buf ch ++ made) ∧
  s' = runners_started made s ∧
  (Z.of_nat (length (chan_buf ch)) ≤ chan_cap ch →
   Z.of_nat (length (chan_buf ch) + length indices) ≤ chan_cap ch).
Proof.
  intros Hw. revert ch s ch' s'.
  induction indices as [| i rest IH]; intros ch s ch' s' Hrun.
  - injection Hrun as <- <-. cbn [pool_runners].
    rewrite app_nil_r, runners_started_nil. destruct ch. split; [done |].
    split; [done |]. cbn [length]. lia.
  - cbn [fillPool] in Hrun. unfold bind at 1 in Hrun.
    rewrite (Create_eval w t s Hw) in Hrun.
    set (created := match pt_Init t with Some _ => _ | None => _ end) in Hrun.
    assert (Hc : created = None ∨ created = Some (minted w t (next_addr s))).
    { subst created. destruct (pt_Init t) as [init |]; [| by left].
      destruct (init _ _); auto. }
    clearbody created. destruct Hc as [-> | ->]; [discriminate |].
    unfold bind at 1 in Hrun. unfold assert_Decoder in Hrun.
    cbn [minted inst_type] in Hrun.
    destruct (pt_isDecoder t); [| discriminate].
    unfold bind at 1, ret at 1 in Hrun. rewrite makeDRunner_eval in Hrun.
    cbv zeta in Hrun.
    destruct (decide _) as [Hroom | _]; [| discriminate].
    apply IH in Hrun. cbv zeta in Hrun. destruct Hrun as (-> & -> & Hlen).
    cbn [chan_cap chan_buf pool_runners] in Hlen |- *.
    rewrite <- app_assoc. cbn [app].
    change (next_addr (set_self _ (set_self _ (set_next_addr S s))))
      with (S (next_addr s)).
    split; [done |]. split; [apply runners_started_cons |].
    intros _. rewrite length_app in Hlen. cbn [length] in Hlen |- *. lia.
Qed.

Lemma fillPool_returns w g t init indices ch s :
  pluginCreator w = FactoryNew t →
  pt_isDecoder t = true →
  pt_Init t = Some init →
  (∀ a r, init a (configCreator w tt) ≠ InitPanics r) →
  Z.of_nat (length (chan_buf ch) + length indices) ≤ chan_cap ch →
  ∃ ch' s', fillPool w g indices ch s = Returned ch' s'.
Proof.
  intros Hw Hdec Hinit Hok. revert ch s.
  induction indices as [| i rest IH]; intros ch s Hlen.
  - by eexists _, _.
  - cbn [fillPool]. unfold bind at 1. rewrite (Create_eval w t s Hw), Hinit.
    destruct (init (next_addr s) (configCreator w tt)) eqn:Hi;
      [| | by apply Hok in Hi].
    all: unfold bind at 1, assert_Decoder; cbn [minted inst_type]; rewrite Hdec;
      unfold bind at 1, ret at 1; rewrite makeDRunner_eval; cbv zeta;
      cbn [length] in Hlen;
      (destruct (decide _) as [_ | Hfull]; [| lia]);
      apply IH; cbn [chan_cap chan_buf]; rewrite length_app; cbn [length]; lia.
Qed.

(** ** Installing a decoder section *)

Lemma regDecoderForHeader_returned (enc : gmap string Z) decoderName encodingName
    s r s' :
  regDecoderForHeader enc decoderName encodingName s = Returned r s' →
  (∃ err, r = Some err ∧ s' = s) ∨
  (r = None ∧ ∃ id, enc !! encodingName = Some id ∧ id ≤ MAX_HEADER_MESSAGEENCODING
     ∧ is_Some (AvailablePlugins s !! decoderName)
     ∧ s' = register_encoding id decoderName s).
Proof.
  unfold regDecoderForHeader. go_unfold.
  destruct (enc !! encodingName) as [id |]; [| intros [= <- <-]; eauto].
  destruct (decide _) as [Hbig | Hsmall]; [intros [= <- <-]; eauto |].
  destruct (AvailablePlugins s !! decoderName) as [f |] eqn:Hreg;
    [| intros [= <- <-]; eauto].
  intros Hrun. right.
  assert (r = None ∧ s' = register_encoding id decoderName s) as [-> ->].
  { destruct s as [av dec top g na cl this]. unfold register_encoding.
    st_simpl. destruct (decide (top < id)); injection Hrun as <- <-;
      (split; [done |]); st_simpl; do 2 f_equal; lia. }
  split; [done |]. exists id. repeat split; [lia | by eexists].
Qed.

Lemma regDecoderForHeader_accepts (enc : gmap string Z) decoderName encodingName
    id f s :
  enc !! encodingName = Some id → id ≤ MAX_HEADER_MESSAGEENCODING →
  AvailablePlugins s !! decoderName = Some f →
  regDecoderForHeader enc decoderName encodingName s =
    Returned None (register_encoding id decoderName s).
Proof.
  intros Henc Hid Hreg. unfold regDecoderForHeader. rewrite Henc.
  destruct (decide _) as [Hbig | _]; [lia |].
  go_unfold. rewrite Hreg.
  destruct s as [av dec top g na cl this]. unfold register_encoding. st_simpl.
  destruct (decide (top < id)); st_simpl; do 2 f_equal; lia.
Qed.

(** What the Decoder part of [loadSection] leaves behind when it comes
    back: one counted error and one log line, or the decoder installed. *)
Lemma loadSection_Decoder_returned (enc : gmap string Z) w t pluginType g plugin
    s n s' :
  pluginCreator w = FactoryNew t →
  inst_type plugin = t →
  loadSection_Decoder enc w pluginType g plugin s = Returned n s' →
  (n = 1 ∧ ∃ msg, s' = set_self (set_logMsgs (fun l => l ++ [msg])) s) ∨
  (n = 0 ∧ ∃ s1,
     (Encoding g = "" ∧ s1 = s
      ∨ Encoding g ≠ "" ∧ ∃ id, enc !! Encoding g = Some id
          ∧ id ≤ MAX_HEADER_MESSAGEENCODING
          ∧ s1 = register_encoding id pluginType s) ∧
     let g' := default_PoolSize (Globals s) g in
     1 ≤ PoolSize g' < 2 ^ 63 ∧
     pt_isDecoder t = true ∧
     s' = decoder_installed w (PoolSize g') (first_runner w g' plugin)
            (pool_runners w g' t (next_addr s) (seqZ 1 (PoolSize g' - 1))) s1).
Proof.
  intros Hw Ht. unfold loadSection_Decoder. unfold bind at 1.
  set (reg := if decide (Encoding g = "") then _ else _).
  destruct (reg s) as [err s1 | |] eqn:Hreg; [| discriminate | discriminate].
  assert (Hs1 : (∃ e, err = Some e ∧ s1 = s) ∨
                err = None ∧ Globals s1 = Globals s ∧ next_addr s1 = next_addr s ∧
                (Encoding g = "" ∧ s1 = s
                 ∨ Encoding g ≠ "" ∧ ∃ id, enc !! Encoding g = Some id
                     ∧ id ≤ MAX_HEADER_MESSAGEENCODING
                     ∧ s1 = register_encoding id pluginType s)).
  { subst reg. destruct (decide (Encoding g = "")) as [He | He].
    - injection Hreg as <- <-. right. split; [done |]. split; [done |].
      split; [done |]. by left.
    - apply regDecoderForHeader_returned in Hreg
        as [(e & -> & ->) | (-> & id & Henc & Hid & _ & ->)]; [eauto |].
      right. split; [done |]. split; [done |]. split; [done |]. right. eauto. }
  clear Hreg. clearbody reg.
  destruct Hs1 as [(e & -> & ->) | (-> & Hg & Ha & Hs1)].
  { unfold log. go_unfold. intros [= <- <-]. left. eauto. }
  intros Hrun. right.
  unfold bind at 1, modify at 1 in Hrun.
  unfold bind at 1, gets at 1 in Hrun.
  change (Globals (set_self _ s1)) with (Globals s1) in Hrun. rewrite Hg in Hrun.
  set (g' := default_PoolSize (Globals s) g) in *.
  unfold bind at 1, make_chan in Hrun.
  destruct (decide (PoolSize g' < 2 ^ 63)) as [Hsize | _]; [| discriminate].
  unfold ret at 1, bind at 1, assert_Decoder in Hrun. rewrite Ht in Hrun.
  destruct (pt_isDecoder t); [| discriminate].
  unfold ret at 1, bind at 1 in Hrun. rewrite makeDRunner_eval in Hrun.
  cbv zeta in Hrun. cbn [chan_buf chan_cap length] in Hrun.
  destruct (decide _) as [Hpos | _]; [| discriminate].
  unfold bind at 1 in Hrun.
  match type of Hrun with
  | context [fillPool ?a ?b ?c ?d ?e] =>
      destruct (fillPool a b c d e) as [ch' s2 | |] eqn:Hfill;
        [| discriminate | discriminate]
  end.
  apply (fillPool_returned w g' t) in Hfill; [| exact Hw].
  cbv zeta in Hfill. destruct Hfill as (-> & -> & _).
  unfold modify, bind, ret in Hrun. injection Hrun as <- <-.
  split; [done |]. exists s1. split; [exact Hs1 |].
  split; [lia |]. split; [done |].
  unfold int_of_uint. destruct (decide _); [| lia].
  change (next_addr (set_self _ (set_self _ (set_self _ s1)))) with (next_addr s1).
  rewrite Ha. reflexivity.
Qed.

(** ** The steps of [loadSection] *)

Lemma LoadConfigStruct_returns config configable s :
  ∃ r, LoadConfigStruct config configable s = Returned r s.
Proof.
  unfold LoadConfigStruct.
  destruct (pt_ConfigStruct (inst_type configable)) as [| r | decode];
    go_unfold; [eauto | eauto |].
  destruct (decode config); eauto.
Qed.

Lemma configPlugin_returns plugin config s :
  ∃ p err, configPlugin plugin config s = Returned (p, err) s ∧
    (err = None →
       ∃ init, pt_Init (inst_type plugin) = Some init
         ∧ init (inst_addr plugin) config = InitOk
         ∧ p = {| inst_type := inst_type plugin; inst_addr := inst_addr plugin;
                  inst_config := Some config |}).
Proof.
  unfold configPlugin, Plugin_Init. go_unfold.
  destruct (pt_Init (inst_type plugin)) as [init |] eqn:Hinit.
  - destruct (init (inst_addr plugin) config) eqn:Hi;
      eexists _, _; (split; [reflexivity |]); [| discriminate | discriminate].
    intros _. eauto.
  - eexists _, _. split; [reflexivity | discriminate].
Qed.

(** A section that decodes and comes back either failed early, with one
    counted error, one log line and at most one address used, or got as far
    as the category-specific part with a made and initialized plugin. *)
Lemma loadSection_returned (enc : gmap string Z) me name sec g s n s' :
  decode_PluginGlobals sec default_PluginGlobals = inr g →
  loadSection enc me name sec s = Returned n s' →
  let pluginType := resolve_pluginType name g in
  (n = 1 ∧ ∃ msg, s' = set_self (set_logMsgs (fun l => l ++ [msg])) s
                  ∨ s' = set_self (set_logMsgs (fun l => l ++ [msg]))
                           (set_next_addr S s))
  ∨ ∃ t config category,
      AvailablePlugins s !! pluginType = Some (FactoryNew t) ∧
      PluginTypeRegex_FindStringSubmatch pluginType = [pluginType; category] ∧
      let w := {| w_name := name; configCreator := fun _ => config;
                  pluginCreator := FactoryNew t |} in
      let plugin := {| inst_type := t; inst_addr := next_addr s;
                       inst_config := Some config |} in
      (if decide (category = "Decoder")
       then loadSection_Decoder enc w pluginType g plugin
       else if decide (category = "Input")
            then loadSection_Input w g plugin
            else loadSection_FilterOutput me w category g plugin)
        (set_next_addr S s) = Returned n s'.
Proof.
  intros Hdec. unfold loadSection. rewrite Hdec. cbv zeta.
  unfold bind at 1, gets at 1.
  destruct (AvailablePlugins s !! resolve_pluginType name g) as [creator |] eqn:Hreg.
  2: { unfold log. go_unfold. intros [= <- <-]. left. eauto. }
  unfold bind at 1, call_factory.
  destruct creator as [t | r]; [| discriminate].
  unfold alloc, bind at 1, ret at 1, bind at 1.
  set (made := {| inst_type := t; inst_addr := next_addr s; inst_config := None |}).
  destruct (LoadConfigStruct_returns sec made (set_next_addr S s)) as [loaded ->].
  destruct loaded as [err | config].
  { unfold log. go_unfold. intros [= <- <-]. left. eauto. }
  unfold bind at 1.
  destruct (configPlugin_returns made config (set_next_addr S s))
    as (plugin & err & -> & Hplugin).
  destruct err as [err |].
  { unfold log. go_unfold. intros [= <- <-]. left. eauto. }
  destruct (Hplugin eq_refl) as (init & Hinit & Hok & ->). clear Hplugin.
  unfold PluginTypeRegex_FindStringSubmatch.
  destruct (match_dot_star_group (resolve_pluginType name g)) as [category |].
  2: { unfold log. go_unfold. intros [= <- <-]. left. eauto. }
  intros Hrun. right. exists t, config, category.
  split; [done |]. split; [done |]. exact Hrun.
Qed.

Lemma section_frame_failed name msg s :
  section_frame name 1 s (set_self (set_logMsgs (fun l => l ++ [msg])) s).
Proof.
  unfold section_frame. st_simpl.
  split; [done |]. split; [done |]. split; [done |]. right. eauto.
Qed.

Lemma section_frame_addr name n f s s' :
  section_frame name n (set_next_addr f s) s' → section_frame name n s s'.
Proof. unfold section_frame. st_simpl. done. Qed.

Lemma loadSection_Decoder_frame (enc : gmap string Z) w t pluginType g plugin
    s n s' :
  pluginCreator w = FactoryNew t →
  inst_type plugin = t →
  loadSection_Decoder enc w pluginType g plugin s = Returned n s' →
  section_frame (w_name w) n s s'.
Proof.
  intros Hw Ht Hrun.
  destruct (loadSection_Decoder_returned _ _ _ _ _ _ _ _ _ Hw Ht Hrun)
    as [(-> & msg & ->) | (-> & s1 & Hs1 & _ & _ & ->)].
  { apply section_frame_failed. }
  unfold section_frame, decoder_installed.
  destruct Hs1 as [(_ & ->) | (_ & id & _ & _ & ->)];
    unfold register_encoding; st_simpl;
    (split; [done |]); (split; [done |]);
    (split; [| by left]); intros k Hk; by rewrite lookup_insert_ne.
Qed.

Lemma loadSection_Input_frame w g plugin s n s' :
  loadSection_Input w g plugin s = Returned n s' →
  section_frame (w_name w) n s s'.
Proof.
  unfold loadSection_Input, assert_Input. go_unfold.
  destruct (pt_isInput (inst_type plugin)); [| discriminate].
  intros [= <- <-]. unfold section_frame. st_simpl.
  split; [done |]. split; [done |]. split; [done |]. by left.
Qed.

Lemma loadSection_FilterOutput_frame me w category g plugin s n s' :
  loadSection_FilterOutput me w category g plugin s = Returned n s' →
  section_frame (w_name w) n s s'.
Proof.
  unfold loadSection_FilterOutput, assert_Plugin, NewFORunner, NewMatchRunner,
    alloc, log.
  go_unfold.
  destruct (pt_Init (inst_type plugin)); [| discriminate].
  destruct (decide (Matcher g = "")).
  - repeat destruct (decide _); intros [= <- <-]; unfold section_frame; st_simpl;
      (split; [done |]); (split; [done |]); (split; [done |]); by left.
  - destruct (me (Matcher g) (Signer g)).
    + intros [= <- <-]. unfold section_frame. st_simpl.
      split; [done |]. split; [done |]. split; [done |]. right. eauto.
    + repeat destruct (decide _); intros [= <- <-]; unfold section_frame; st_simpl;
        (split; [done |]); (split; [done |]); (split; [done |]); by left.
Qed.

(** Every section that comes back counted no error and logged nothing, or
    counted one error and logged one line. *)
Lemma loadSection_frame (enc : gmap string Z) me name sec s n s' :
  loadSection enc me name sec s = Returned n s' →
  section_frame name n s s'.
Proof.
  intros Hrun.
  destruct (decode_PluginGlobals sec default_PluginGlobals) as [err | g] eqn:Hdec.
  { revert Hrun. unfold loadSection. rewrite Hdec. unfold log. go_unfold.
    intros [= <- <-]. apply section_frame_failed. }
  destruct (loadSection_returned _ _ _ _ _ _ _ _ Hdec Hrun)
    as [(-> & msg & [-> | ->]) | (t & config & category & _ & _ & Hbranch)].
  - apply section_frame_failed.
  - apply (section_frame_addr _ _ S). apply section_frame_failed.
  - cbv zeta in Hbranch. apply (section_frame_addr _ _ S).
    destruct (decide (category = "Decoder")).
    { by apply (loadSection_Decoder_frame _ _ t) in Hbranch. }
    destruct (decide (category = "Input")).
    { by apply loadSection_Input_frame in Hbranch. }
    by apply loadSection_FilterOutput_frame in Hbranch.
Qed.

(** ** Plugin type and category *)



(** ** Counting errors *)

Lemma loadSection_unknown (enc : gmap string Z) me name sec g s :
  decode_PluginGlobals sec default_PluginGlobals = inr g →
  AvailablePlugins s !! resolve_pluginType name g = None →
  loadSection enc me name sec s =
    Returned 1 (set_self (set_logMsgs (fun l => l ++ ["No such plugin: " +:+ name])) s).
Proof.
  intros Hdec Hreg. unfold loadSection. rewrite Hdec. cbv zeta.
  unfold bind at 1, gets at 1. rewrite Hreg. reflexivity.
Qed.

(** The loop over the sections: what it adds to the error count is the
    number of lines it logged, and every section of an unregistered type
    has its line among them. *)
Lemma loadSections_returned (enc : gmap string Z) me doc errcnt s n s' :
  loadSections enc me doc errcnt s = Returned n s' →
  0 ≤ errcnt → errcnt + Z.of_nat (length doc) < uint_modulus →
  AvailablePlugins s' = AvailablePlugins s ∧
  Globals s' = Globals s ∧
  ∃ msgs, logMsgs (self s') = logMsgs (self s) ++ msgs ∧
    n = errcnt + Z.of_nat (length msgs) ∧
    (length msgs ≤ length doc)%nat ∧
    ∀ name sec g, (name, sec) ∈ doc →
      decode_PluginGlobals sec default_PluginGlobals = inr g →
      AvailablePlugins s !! resolve_pluginType name g = None →
      "No such plugin: " +:+ name ∈ msgs.
Proof.
  revert errcnt s. induction doc as [| [name conf] rest IH]; intros errcnt s.
  - intros [= <- <-] _ _. split; [done |]. split; [done |]. exists [].
    rewrite app_nil_r. cbn [length]. split; [done |]. split; [lia |].
    split; [lia |]. intros name sec g Hin. by apply elem_of_nil in Hin.
  - cbn [loadSections length]. unfold bind at 1.
    destruct (loadSection enc me name conf s) as [k s1 | |] eqn:Hsec;
      [| discriminate | discriminate].
    intros Hrun Hpos Hbound.
    destruct (loadSection_frame _ _ _ _ _ _ _ Hsec) as (Hav & Hgl & _ & Hlog).
    assert (Hk : 0 ≤ k ≤ 1) by (destruct Hlog as [[-> _] | [-> _]]; lia).
    assert (Hwrap : uint_wrap (errcnt + k) = errcnt + k).
    { unfold uint_wrap. apply Z.mod_small. lia. }
    rewrite Hwrap in Hrun.
    apply IH in Hrun; [| lia | lia].
    destruct Hrun as (Hav' & Hgl' & msgs & Hmsgs & -> & Hlen & Hunknown).
    split; [congruence |]. split; [congruence |].
    destruct Hlog as [[-> Hlog] | [-> (msg & Hlog)]].
    + exists msgs. rewrite Hmsgs, Hlog. split; [done |]. split; [lia |].
      split; [lia |]. intros name' sec g Hin Hdec Hreg.
      apply elem_of_cons in Hin as [[= -> ->] | Hin].
      * rewrite (loadSection_unknown _ _ _ _ _ _ Hdec Hreg) in Hsec.
        discriminate.
      * apply (Hunknown name' sec g Hin Hdec). by rewrite Hav.
    + exists (msg :: msgs). rewrite Hmsgs, Hlog, <- app_assoc.
      split; [done |]. split; [cbn [length]; lia |]. split; [cbn [length]; lia |].
      intros name' sec g Hin Hdec Hreg.
      apply elem_of_cons in Hin as [[= -> ->] | Hin].
      * rewrite (loadSection_unknown _ _ _ _ _ _ Hdec Hreg) in Hsec.
        injection Hsec as <-. revert Hlog. st_simpl.
        intros [= <-]%app_inv_head. apply list_elem_of_here.
      * apply list_elem_of_further.
        apply (Hunknown name' sec g Hin Hdec). by rewrite Hav.
Qed.

Lemma loadDefault_returned (enc : gmap string Z) me name errcnt s n s' :
  loadDefault enc me name errcnt s = Returned n s' →
  0 ≤ errcnt → errcnt + 1 < uint_modulus →
  ∃ msgs, logMsgs (self s') = logMsgs (self s) ++ msgs ∧
    n = errcnt + Z.of_nat (length msgs) ∧ (length msgs ≤ 1)%nat.
Proof.
  unfold loadDefault. unfold bind at 1, gets at 1.
  destruct (DecoderWrappers (self s) !! name).
  - intros [= <- <-] _ _. exists []. rewrite app_nil_r. cbn [length].
    split; [done |]. split; lia.
  - unfold bind at 1.
    destruct (loadSection enc me name _ s) as [k s1 | |] eqn:Hsec;
      [| discriminate | discriminate].
    intros [= <- <-] Hpos Hbound.
    destruct (loadSection_frame _ _ _ _ _ _ _ Hsec) as (_ & _ & _ & Hlog).
    destruct Hlog as [[-> Hlog] | [-> (msg & Hlog)]].
    + exists []. rewrite app_nil_r. split; [done |]. cbn [length].
      split; [| lia]. unfold uint_wrap. rewrite Z.mod_small; lia.
    + exists [msg]. split; [done |]. cbn [length].
      split; [| lia]. unfold uint_wrap. rewrite Z.mod_small; lia.
Qed.

(** When [LoadFromConfigFile] comes back from a document, its result is
    decided by the number of lines logged on the way: nil for none, the
    summary error with that number otherwise. *)
Lemma LoadFromConfigFile_returned (enc : gmap string Z) me doc s res s' :
  LoadFromConfigFile enc me (inr doc) s = Returned res s' →
  Z.of_nat (length doc) + 2 < uint_modulus →
  ∃ msgs, logMsgs (self s') = logMsgs (self s) ++ msgs ∧
    res = (if decide (length msgs = 0%nat) then None
           else Some (fmt_d (Z.of_nat (length msgs)) +:+ " errors loading plugins")) ∧
    ∀ name sec g, (name, sec) ∈ doc →
      decode_PluginGlobals sec default_PluginGlobals = inr g →
      AvailablePlugins s !! resolve_pluginType name g = None →
      "No such plugin: " +:+ name ∈ msgs.
Proof.
  unfold LoadFromConfigFile. unfold bind at 1.
  destruct (loadSections enc me doc 0 s) as [n1 s1 | |] eqn:H1;
    [| discriminate | discriminate].
  unfold bind at 1.
  destruct (loadDefault enc me "JsonDecoder" n1 s1) as [n2 s2 | |] eqn:H2;
    [| discriminate | discriminate].
  unfold bind at 1.
  destruct (loadDefault enc me "ProtobufDecoder" n2 s2) as [n3 s3 | |] eqn:H3;
    [| discriminate | discriminate].
  intros Hres Hbound.
  apply loadSections_returned in H1; [| lia | lia].
  destruct H1 as (_ & _ & m1 & Hm1 & -> & Hl1 & Hunknown).
  apply loadDefault_returned in H2; [| lia | lia].
  destruct H2 as (m2 & Hm2 & -> & Hl2).
  apply loadDefault_returned in H3; [| lia | lia].
  destruct H3 as (m3 & Hm3 & -> & Hl3).
  exists (m1 ++ m2 ++ m3).
  assert (Hlog : logMsgs (self s') = logMsgs (self s) ++ m1 ++ m2 ++ m3).
  { destruct (decide _); injection Hres as <- <-;
      by rewrite Hm3, Hm2, Hm1, <- !app_assoc. }
  split; [exact Hlog |]. split.
  - rewrite !length_app.
    destruct (decide (0 + _ + _ + _ = 0)) as [Hz | Hnz];
      injection Hres as <- <-; destruct (decide _) as [Hz' | Hnz'];
      try lia; try reflexivity.
    do 3 f_equal. lia.
  - intros name sec g Hin Hdec Hreg. apply elem_of_app. left. eauto.
Qed.

(** C5: a section whose resolved plugin type is not registered counts one
    error and logs [No such plugin: <section name>]; a load of a document
    with such a section, when it comes back, returns
    [<n> errors loading plugins], [n] being the number of errors counted,
    one per line logged; the document [{Bad = {type = "NoSuchThing"}}]
    gives [1 errors loading plugins] and the line [No such plugin: Bad]. *)
Theorem unknown_plugin_is_counted (enc : gmap string Z) me name sec g s :
  decode_PluginGlobals sec default_PluginGlobals = inr g →
  AvailablePlugins s !! resolve_pluginType name g = None →
  loadSection enc me name sec s =
    Returned 1 (set_self (set_logMsgs (fun l => l ++ ["No such plugin: " +:+ name])) s)
  ∧ (∀ doc res s',
       (name, sec) ∈ doc →
       Z.of_nat (length doc) + 2 < uint_modulus →
       LoadFromConfigFile enc me (inr doc) s = Returned res s' →
       ∃ msgs, logMsgs (self s') = logMsgs (self s) ++ msgs ∧
         "No such plugin: " +:+ name ∈ msgs ∧
         res = Some (fmt_d (Z.of_nat (length msgs)) +:+ " errors loading plugins"))
  ∧ (∀ host process,
       match LoadFromConfigFile wire_encodings me (inr config_Bad)
               (startup DefaultGlobals host process) with
       | Returned res s' =>
           res = Some "1 errors loading plugins" ∧
           logMsgs (self s') = ["No such plugin: Bad"]
       | _ => False
       end).
Proof.
  intros Hdec Hreg. split; [by apply (loadSection_unknown _ _ _ _ g) |]. split.
  - intros doc res s' Hin Hbound Hrun.
    destruct (LoadFromConfigFile_returned _ _ _ _ _ _ Hrun Hbound)
      as (msgs & Hlog & -> & Hunknown).
    exists msgs. split; [exact Hlog |].
    assert (Hmsg : "No such plugin: " +:+ name ∈ msgs) by eauto.
    split; [exact Hmsg |].
    destruct (decide _) as [Hz | _]; [| done].
    destruct msgs; [by apply elem_of_nil in Hmsg | discriminate].
  - intros host process. vm_compute. split; reflexivity.
Qed.

(** C5 on the section [Bad] of scenario S3. *)
Lemma unknown_plugin_is_counted_witness :
  let g := {| Typ := "NoSuchThing"; Ticker := 0; Encoding := ""; Matcher := "";
              Signer := ""; PoolSize := 0;
              Retries := {| MaxDelay := "30s"; Delay := "250ms"; MaxRetries := -1 |} |} in
  let s := startup DefaultGlobals "host" 42 in
  let sec := TTable [("type", TString "NoSuchThing")] in
  decode_PluginGlobals sec default_PluginGlobals = inr g ∧
  AvailablePlugins s !! resolve_pluginType "Bad" g = None ∧
  loadSection wire_encodings (fun _ _ => None) "Bad" sec s =
    Returned 1 (set_self (set_logMsgs (fun l => l ++ ["No such plugin: Bad"])) s).
Proof.
  cbv zeta.
  assert (Hdec : decode_PluginGlobals (TTable [("type", TString "NoSuchThing")])
                   default_PluginGlobals
                 = inr {| Typ := "NoSuchThing"; Ticker := 0; Encoding := "";
                          Matcher := ""; Signer := ""; PoolSize := 0;
                          Retries := {| MaxDelay := "30s"; Delay := "250ms";
                                        MaxRetries := -1 |} |})
    by (vm_compute; reflexivity).
  split; [exact Hdec |].
  match goal with
  | |- ?A ∧ _ => assert (Hreg : A) by (vm_compute; reflexivity)
  end.
  split; [exact Hreg |].
  exact (proj1 (unknown_plugin_is_counted wire_encodings (fun _ _ => None) "Bad" _ _
                  (startup DefaultGlobals "host" 42) Hdec Hreg)).
Defined.

(** ** A loaded decoder section *)

Lemma length_pool_runners w g t a indices :
  length (pool_runners w g t a indices) = length indices.
Proof.
  revert a. induction indices as [| i rest IH]; intros a; cbn [pool_runners length];
    [done | by rewrite IH].
Qed.

Lemma lookup_pool_runners w g t a indices j r :
  pool_runners w g t a indices !! j = Some r →
  ∃ i, indices !! j = Some i ∧
    r = {| dr_name := w_name w +:+ "-" +:+ fmt_d i;
           dr_decoder := minted w t (a + j); dr_globals := g; dr_started := true |}.
Proof.
  revert a j. induction indices as [| i rest IH]; intros a j; cbn [pool_runners].
  - by rewrite lookup_nil.
  - destruct j as [| j].
    + intros [= <-]. exists i. by rewrite Nat.add_0_r.
    + cbn [lookup list_lookup]. intros H. apply IH in H as (i' & Hi & ->).
      exists i'. split; [done |]. by rewrite Nat.add_succ_r.
Qed.

(** C4: a Decoder section that loads without error, with effective pool
    size [p] (its [pool_size] if non-zero, else the global
    [DecoderPoolSize]), leaves its wrapper in [DecoderWrappers] under the
    section name, a channel of capacity [p] in [decoderChannels] holding
    [p] started runners named [<section>-0] to [<section>-(p-1)], the
    first around the plugin the section initialized and the others around
    fresh plugins made by the wrapper, and the same [p] runners appended to
    [allDecoders]. *)
Theorem decoder_section_pool (enc : gmap string Z) me name sec g s s' :
  decode_PluginGlobals sec default_PluginGlobals = inr g →
  PluginTypeRegex_FindStringSubmatch (resolve_pluginType name g)
    = [resolve_pluginType name g; "Decoder"] →
  loadSection enc me name sec s = Returned 0 s' →
  let g' := default_PoolSize (Globals s) g in
  let p := PoolSize g' in
  p = (if decide (PoolSize g = 0) then uint_wrap (DecoderPoolSize (Globals s))
       else PoolSize g) ∧
  1 ≤ p ∧
  ∃ t config runners,
    AvailablePlugins s !! resolve_pluginType name g = Some (FactoryNew t) ∧
    let w := {| w_name := name; configCreator := fun _ => config;
                pluginCreator := FactoryNew t |} in
    DecoderWrappers (self s') !! name = Some w ∧
    decoderChannels (self s') !! name = Some (MkChan p runners) ∧
    Z.of_nat (length runners) = p ∧
    allDecoders (self s') = allDecoders (self s) ++ runners ∧
    decodersWg (self s') = decodersWg (self s) + p ∧
    runners !! 0%nat =
      Some (first_runner w g' {| inst_type := t; inst_addr := next_addr s;
                                 inst_config := Some config |}) ∧
    (∀ i r, runners !! i = Some r →
       dr_name r = name +:+ "-" +:+ fmt_d (Z.of_nat i) ∧
       dr_started r = true ∧
       inst_type (dr_decoder r) = t ∧
       inst_addr (dr_decoder r) = (next_addr s + i)%nat ∧
       ((0 < i)%nat → dr_decoder r = minted w t (next_addr s + i))).
Proof.
  intros Hdec Hcat Hrun g' p.
  split.
  { subst p g'. unfold default_PoolSize. by destruct (decide _). }
  destruct (loadSection_returned _ _ _ _ _ _ _ _ Hdec Hrun)
    as [([=] & _) | (t & config & category & Hreg & Hcat' & Hbranch)].
  rewrite Hcat in Hcat'. injection Hcat' as <-.
  cbv zeta in Hbranch. rewrite decide_True in Hbranch by done.
  apply (loadSection_Decoder_returned _ _ t) in Hbranch; [| done | done].
  destruct Hbranch as [([=] & _) | (_ & s1 & Hs1 & Hp & Hisdec & ->)].
  cbv zeta in Hp.
  change (Globals (set_next_addr S s)) with (Globals s) in *.
  fold g' in Hp |- *. fold p in Hp |- *.
  split; [lia |].
  set (w := {| w_name := name; configCreator := fun _ => config;
               pluginCreator := FactoryNew t |}).
  set (first := first_runner w g' _).
  change (next_addr (set_next_addr S s)) with (S (next_addr s)).
  set (rest := pool_runners w g' t (S (next_addr s)) (seqZ 1 (p - 1))).
  assert (Hlen : length rest = Z.to_nat (p - 1)).
  { subst rest. by rewrite length_pool_runners, length_seqZ. }
  assert (Hall : allDecoders (self s1) = allDecoders (self s)
                 ∧ decodersWg (self s1) = decodersWg (self s)).
  { destruct Hs1 as [(_ & ->) | (_ & id & _ & _ & ->)]; by st_simpl. }
  destruct Hall as [Hall Hwg].
  exists t, config, (first :: rest).
  split; [exact Hreg |]. cbv zeta. unfold decoder_installed.
  split; [st_simpl; apply lookup_insert_eq |].
  split; [st_simpl; apply lookup_insert_eq |].
  split; [cbn [length]; lia |].
  split; [st_simpl; by rewrite Hall, <- app_assoc |].
  split; [st_simpl; rewrite Hwg; lia |].
  split; [done |].
  intros i r Hr. destruct i as [| j].
  - injection Hr as <-. subst first. unfold first_runner.
    cbn [dr_name dr_started dr_decoder inst_type inst_addr w_name w].
    rewrite Nat.add_0_r. repeat split; lia.
  - cbn [lookup list_lookup] in Hr. subst rest.
    apply lookup_pool_runners in Hr as (i & Hi & ->).
    apply lookup_seqZ in Hi as [-> Hj].
    cbn [dr_name dr_started dr_decoder minted inst_type inst_addr w_name w].
    replace (1 + Z.of_nat j) with (Z.of_nat (S j)) by lia.
    replace (S (next_addr s) + j)%nat with (next_addr s + S j)%nat by lia.
    repeat split.
Qed.

(** C4 on the section [A] of scenario S1. *)
Lemma decoder_section_pool_witness :
  let s := startup DefaultGlobals "host" 42 in
  ∃ g s' runners,
    decode_PluginGlobals section_A default_PluginGlobals = inr g ∧
    PluginTypeRegex_FindStringSubmatch (resolve_pluginType "A" g)
      = [resolve_pluginType "A" g; "Decoder"] ∧
    loadSection wire_encodings (fun _ _ => None) "A" section_A s = Returned 0 s' ∧
    decoderChannels (self s') !! "A" = Some (MkChan 4 runners) ∧
    Z.of_nat (length runners) = 4.
Proof.
  cbv zeta.
  set (g := {| Typ := "JsonDecoder"; Ticker := 0; Encoding := "JSON"; Matcher := "";
               Signer := ""; PoolSize := 0;
               Retries := {| MaxDelay := "30s"; Delay := "250ms";
                             MaxRetries := -1 |} |}).
  assert (Hdec : decode_PluginGlobals section_A default_PluginGlobals = inr g)
    by (vm_compute; reflexivity).
  assert (Hcat : PluginTypeRegex_FindStringSubmatch (resolve_pluginType "A" g)
                 = [resolve_pluginType "A" g; "Decoder"])
    by (vm_compute; reflexivity).
  destruct (loadSection wire_encodings (fun _ _ => None) "A" section_A
              (startup DefaultGlobals "host" 42)) as [n s' | |] eqn:Hrun;
    [| vm_compute in Hrun; discriminate | vm_compute in Hrun; discriminate].
  assert (Hn : n = 0) by (vm_compute in Hrun; by injection Hrun as <- _).
  subst n.
  destruct (decoder_section_pool wire_encodings (fun _ _ => None) "A" section_A g
              (startup DefaultGlobals "host" 42) s' Hdec Hcat Hrun)
    as (_ & _ & t & config & runners & _ & _ & Hchan & Hlen & _).
  exists g, s', runners. split; [exact Hdec |]. split; [exact Hcat |].
  split; [reflexivity |]. split; [exact Hchan | exact Hlen].
Defined.

(** ** The default decoders *)

Lemma loadSection_Decoder_returns (enc : gmap string Z) w t init pluginType g
    plugin id f s :
  pluginCreator w = FactoryNew t →
  inst_type plugin = t →
  pt_isDecoder t = true →
  pt_Init t = Some init →
  (∀ a r, init a (configCreator w tt) ≠ InitPanics r) →
  Encoding g ≠ "" →
  enc !! Encoding g = Some id →
  id ≤ MAX_HEADER_MESSAGEENCODING →
  AvailablePlugins s !! pluginType = Some f →
  let g' := default_PoolSize (Globals s) g in
  1 ≤ PoolSize g' < 2 ^ 63 →
  loadSection_Decoder enc w pluginType g plugin s =
    Returned 0
      (decoder_installed w (PoolSize g') (first_runner w g' plugin)
         (pool_runners w g' t (next_addr s) (seqZ 1 (PoolSize g' - 1)))
         (register_encoding id pluginType s)).
Proof.
  intros Hw Ht Hisdec Hinit Hok Henc Hid Hmax Hreg g' Hp.
  unfold loadSection_Decoder. rewrite decide_False by done.
  unfold bind at 1.
  rewrite (regDecoderForHeader_accepts _ _ _ id f) by done.
  unfold bind at 1, modify at 1. unfold bind at 1, gets at 1.
  change (Globals (set_self _ (register_encoding id pluginType s)))
    with (Globals s).
  fold g'. unfold bind at 1, make_chan. rewrite decide_True by lia.
  unfold ret at 1, bind at 1, assert_Decoder. rewrite Ht, Hisdec.
  unfold ret at 1, bind at 1. rewrite makeDRunner_eval. cbv zeta.
  cbn [chan_buf chan_cap length]. rewrite decide_True by lia.
  unfold bind at 1.
  match goal with
  | |- context [fillPool ?a ?b ?c ?d ?e] =>
      destruct (fillPool_returns a b t init c d e) as (ch' & s2 & Hfill);
        [done | done | done | done | |]
  end.
  { cbn [chan_buf chan_cap length app]. rewrite length_seqZ.
    unfold int_of_uint. rewrite decide_True by lia. lia. }
  rewrite Hfill. apply (fillPool_returned w g' t) in Hfill; [| done].
  cbv zeta in Hfill. destruct Hfill as (-> & -> & _).
  unfold modify, bind, ret. unfold int_of_uint. rewrite decide_True by lia.
  reflexivity.
Qed.

Lemma loadSection_default (enc : gmap string Z) me name encodingName t id s :
  AvailablePlugins s !! name = Some (FactoryNew t) →
  plain_decoder t →
  encodingName ≠ "" →
  enc !! encodingName = Some id →
  id ≤ MAX_HEADER_MESSAGEENCODING →
  match_dot_star_group name = Some "Decoder" →
  1 ≤ uint_wrap (DecoderPoolSize (Globals s)) < 2 ^ 63 →
  loadSection enc me name (encoding_section encodingName) s =
    Returned 0 (default_loaded name encodingName t id s).
Proof.
  intros Hreg (Hcfg & (init & Hinit & Hok) & Hisdec) Hne Henc Hid Hmatch Hp.
  unfold loadSection.
  replace (decode_PluginGlobals (encoding_section encodingName) default_PluginGlobals)
    with (@inr string _ (encoding_globals encodingName)) by reflexivity.
  cbv zeta.
  change (resolve_pluginType name (encoding_globals encodingName)) with name.
  unfold bind at 1, gets at 1. rewrite Hreg.
  unfold bind at 1, call_factory, alloc, bind at 1, ret at 1.
  unfold bind at 1, LoadConfigStruct. cbn [inst_type]. rewrite Hcfg.
  unfold ret at 1. cbn [decode_PluginConfig encoding_section].
  unfold bind at 1, configPlugin, recovering, Plugin_Init. cbn [inst_type inst_addr].
  rewrite Hinit, Hok. unfold ret at 1.
  unfold PluginTypeRegex_FindStringSubmatch. rewrite Hmatch.
  rewrite decide_True by done.
  erewrite (loadSection_Decoder_returns enc _ t init name _ _ id); try done.
  intros a r. by rewrite Hok.
Qed.

(** C8: once the sections of the document are loaded, a load that finds
    neither a [JsonDecoder] nor a [ProtobufDecoder] wrapper loads the two
    sections of the default document through [loadSection] and adds their
    errors to the count; from an empty document and a new configuration,
    with the two decoders registered, this leaves exactly the two wrappers,
    bound to [JSON] and [PROTOCOL_BUFFER], and no input, filter or output
    runner. *)
Theorem default_decoders_loaded (enc : gmap string Z) me doc s :
  (∀ n1 s1,
     loadSections enc me doc 0 s = Returned n1 s1 →
     DecoderWrappers (self s1) !! "JsonDecoder" = None →
     DecoderWrappers (self s1) !! "ProtobufDecoder" = None →
     LoadFromConfigFile enc me (inr doc) s =
       (let* nj := loadSection enc me "JsonDecoder" (encoding_section "JSON") in
        let* np := loadSection enc me "ProtobufDecoder"
                     (encoding_section "PROTOCOL_BUFFER") in
        let errcnt := uint_wrap (uint_wrap (n1 + nj) + np) in
        if decide (errcnt = 0) then ret None
        else ret (Some (fmt_d errcnt +:+ " errors loading plugins"))) s1) ∧
  (∀ tj tp idj idp,
     AvailablePlugins s !! "JsonDecoder" = Some (FactoryNew tj) →
     AvailablePlugins s !! "ProtobufDecoder" = Some (FactoryNew tp) →
     plain_decoder tj → plain_decoder tp →
     enc !! "JSON" = Some idj → enc !! "PROTOCOL_BUFFER" = Some idp →
     idj ≤ MAX_HEADER_MESSAGEENCODING → idp ≤ MAX_HEADER_MESSAGEENCODING →
     idj ≠ idp →
     1 ≤ uint_wrap (DecoderPoolSize (Globals s)) < 2 ^ 63 →
     DecoderWrappers (self s) = ∅ → InputRunners (self s) = ∅ →
     FilterRunners (self s) = ∅ → OutputRunners (self s) = ∅ →
     let s' := default_loaded "ProtobufDecoder" "PROTOCOL_BUFFER" tp idp
                 (default_loaded "JsonDecoder" "JSON" tj idj s) in
     LoadFromConfigFile enc me (inr []) s = Returned None s' ∧
     DecoderWrappers (self s') =
       <["ProtobufDecoder" := encoding_wrapper "ProtobufDecoder" "PROTOCOL_BUFFER" tp]>
         (<["JsonDecoder" := encoding_wrapper "JsonDecoder" "JSON" tj]> ∅) ∧
     DecodersByEncoding s' !! idj = Some "JsonDecoder" ∧
     DecodersByEncoding s' !! idp = Some "ProtobufDecoder" ∧
     InputRunners (self s') = ∅ ∧ FilterRunners (self s') = ∅ ∧
     OutputRunners (self s') = ∅).
Proof.
  split.
  - intros n1 s1 H1 Hj Hp. unfold LoadFromConfigFile.
    unfold bind at 1. rewrite H1.
    unfold bind at 1, loadDefault at 1. unfold bind at 1, gets at 1. rewrite Hj.
    change (ConfigFile_index defaultDecoderTOML "JsonDecoder")
      with (encoding_section "JSON").
    unfold bind, ret, gets.
    destruct (loadSection enc me "JsonDecoder" (encoding_section "JSON") s1)
      as [nj s2 | |] eqn:H2; [| done | done].
    unfold loadDefault, bind, gets, ret.
    destruct (loadSection_frame _ _ _ _ _ _ _ H2) as (_ & _ & Hother & _).
    rewrite (Hother "ProtobufDecoder") by done. rewrite Hp.
    change (ConfigFile_index defaultDecoderTOML "ProtobufDecoder")
      with (encoding_section "PROTOCOL_BUFFER").
    destruct (loadSection enc me "ProtobufDecoder" _ s2) as [np s3 | |];
      [| done | done].
    reflexivity.
  - intros tj tp idj idp Hrj Hrp Hpj Hpp Hej Hep Hij Hip Hne Hpool Hw Hi Hf Ho s'.
    assert (Hrun : LoadFromConfigFile enc me (inr []) s = Returned None s').
    { unfold LoadFromConfigFile. cbn [loadSections].
      unfold bind at 1, ret at 1, bind at 1, loadDefault at 1.
      unfold bind at 1, gets at 1. rewrite Hw, lookup_empty.
      change (ConfigFile_index defaultDecoderTOML "JsonDecoder")
        with (encoding_section "JSON").
      unfold bind at 1.
      rewrite (loadSection_default enc me "JsonDecoder" "JSON" tj idj) by done.
      unfold ret at 1, bind at 1, loadDefault. unfold bind at 1, gets at 1.
      replace (DecoderWrappers (self (default_loaded "JsonDecoder" "JSON" tj idj s))
                 !! "ProtobufDecoder") with (@None PluginWrapper).
      2: { unfold default_loaded, decoder_installed, register_encoding. st_simpl.
           rewrite lookup_insert_ne by done. by rewrite Hw, lookup_empty. }
      change (ConfigFile_index defaultDecoderTOML "ProtobufDecoder")
        with (encoding_section "PROTOCOL_BUFFER").
      unfold bind at 1.
      rewrite (loadSection_default enc me "ProtobufDecoder" "PROTOCOL_BUFFER" tp idp);
        [reflexivity | | done | done | done | done | done |].
      - unfold default_loaded, decoder_installed, register_encoding. st_simpl.
        exact Hrp.
      - unfold default_loaded, decoder_installed, register_encoding. st_simpl.
        exact Hpool. }
    split; [exact Hrun |]. subst s'.
    unfold default_loaded, decoder_installed, register_encoding.
    cbv zeta. st_simpl.
    split; [by rewrite Hw |].
    split; [by rewrite lookup_insert_ne, lookup_insert_eq |].
    split; [by rewrite lookup_insert_eq |]. done.
Qed.

(** C8 on the process right after start-up. *)
Lemma default_decoders_loaded_witness :
  let s := startup DefaultGlobals "host" 42 in
  let tj := stock "JsonDecoder" true false in
  let tp := stock "ProtobufDecoder" true false in
  let s' := default_loaded "ProtobufDecoder" "PROTOCOL_BUFFER" tp 0
              (default_loaded "JsonDecoder" "JSON" tj 1 s) in
  AvailablePlugins s !! "JsonDecoder" = Some (FactoryNew tj) ∧
  AvailablePlugins s !! "ProtobufDecoder" = Some (FactoryNew tp) ∧
  plain_decoder tj ∧ plain_decoder tp ∧
  wire_encodings !! "JSON" = Some 1 ∧ wire_encodings !! "PROTOCOL_BUFFER" = Some 0 ∧
  1 ≤ uint_wrap (DecoderPoolSize (Globals s)) < 2 ^ 63 ∧
  DecoderWrappers (self s) = ∅ ∧ InputRunners (self s) = ∅ ∧
  FilterRunners (self s) = ∅ ∧ OutputRunners (self s) = ∅ ∧
  LoadFromConfigFile wire_encodings (fun _ _ => None) (inr []) s = Returned None s' ∧
  DecodersByEncoding s' !! 1 = Some "JsonDecoder" ∧
  DecodersByEncoding s' !! 0 = Some "ProtobufDecoder" ∧
  InputRunners (self s') = ∅ ∧ FilterRunners (self s') = ∅ ∧
  OutputRunners (self s') = ∅.
Proof.
  cbv zeta.
  assert (Hrj : AvailablePlugins (startup DefaultGlobals "host" 42) !! "JsonDecoder"
                = Some (FactoryNew (stock "JsonDecoder" true false)))
    by (vm_compute; reflexivity).
  assert (Hrp : AvailablePlugins (startup DefaultGlobals "host" 42) !! "ProtobufDecoder"
                = Some (FactoryNew (stock "ProtobufDecoder" true false)))
    by (vm_compute; reflexivity).
  assert (Hplain : ∀ name, plain_decoder (stock name true false)).
  { intros name. split; [reflexivity |]. split; [| reflexivity].
    exists (fun _ _ => InitOk). split; reflexivity. }
  assert (Hej : wire_encodings !! "JSON" = Some 1) by (vm_compute; reflexivity).
  assert (Hep : wire_encodings !! "PROTOCOL_BUFFER" = Some 0)
    by (vm_compute; reflexivity).
  assert (Hpool : 1 ≤ uint_wrap (DecoderPoolSize (Globals (startup DefaultGlobals
                    "host" 42))) < 2 ^ 63)
    by (split; vm_compute; congruence).
  assert (Hw : DecoderWrappers (self (startup DefaultGlobals "host" 42)) = ∅)
    by reflexivity.
  assert (Hi : InputRunners (self (startup DefaultGlobals "host" 42)) = ∅)
    by reflexivity.
  assert (Hf : FilterRunners (self (startup DefaultGlobals "host" 42)) = ∅)
    by reflexivity.
  assert (Ho : OutputRunners (self (startup DefaultGlobals "host" 42)) = ∅)
    by reflexivity.
  assert (Hij : 1 ≤ MAX_HEADER_MESSAGEENCODING) by (unfold MAX_HEADER_MESSAGEENCODING; lia).
  assert (Hip : 0 ≤ MAX_HEADER_MESSAGEENCODING) by (unfold MAX_HEADER_MESSAGEENCODING; lia).
  assert (Hne : 1 ≠ 0) by lia.
  destruct (proj2 (default_decoders_loaded wire_encodings (fun _ _ => None) []
                     (startup DefaultGlobals "host" 42))
              _ _ 1 0 Hrj Hrp (Hplain _) (Hplain _) Hej Hep Hij Hip Hne Hpool
              Hw Hi Hf Ho)
    as (Hrun & _ & Hdj & Hdp & Hi' & Hf' & Ho').
  repeat (split; [assumption || apply Hplain |]). exact Ho'.
Defined.

(** Scenario S1 of the specification, run through: the section [A] of
    type [JsonDecoder] bound to [JSON], with the default pool size of 4. *)
Example scenario_S1 host process me :
  match loadSection wire_encodings me "A" section_A
          (startup DefaultGlobals host process) with
  | Returned errcnt s' =>
      errcnt = 0 ∧
      is_Some (DecoderWrappers (self s') !! "A") ∧
      (fun c => (chan_cap c, dr_name <$> chan_buf c)) <$> decoderChannels (self s') !! "A"
        = Some (4, ["A-0"; "A-1"; "A-2"; "A-3"]) ∧
      DecodersByEncoding s' !! 1 = Some "JsonDecoder"
  | _ => False
  end.
Proof. vm_compute. repeat split. by eexists. Qed.

(** * Further properties *)

(** ** PipelinePack, pools and limits *)

(** X1: a loop count that the increment does not wrap is checked against
    [MaxMsgLoops] as written: over the limit nothing is returned and the
    state stays as it is, whatever the pools hold; within the limit the
    call takes the head of the inject pool, stamps it, and leaves the rest
    of the pool and the whole input pool alone. *)
Theorem PipelinePack_within_range clock k s :
  0 ≤ k → k + 1 < uint_modulus →
  (MaxMsgLoops (Globals s) < k + 1 → PipelinePack clock k s = Returned None s) ∧
  (k + 1 ≤ MaxMsgLoops (Globals s) →
     ∀ pack rest, chan_buf (injectRecycleChan (self s)) = pack :: rest →
     ∃ s', PipelinePack clock k s =
             Returned (Some {| Msg := stamp clock (self s) (Msg pack);
                               RefCount := 1; MsgLoopCount := k + 1;
                               RecycleChan := RecycleChan pack |}) s' ∧
           chan_buf (injectRecycleChan (self s')) = rest ∧
           inputRecycleChan (self s') = inputRecycleChan (self s) ∧
           Payload (stamp clock (self s) (Msg pack)) = Payload (Msg pack)).
Proof.
  intros Hk Hk'.
  assert (Hw : uint_wrap (k + 1) = k + 1).
  { unfold uint_wrap. apply Z.mod_small. lia. }
  split.
  - intros Hmax. unfold PipelinePack. go_unfold. rewrite Hw.
    destruct (decide _); [done | lia].
  - intros Hmax pack rest Hbuf. eexists. split.
    + unfold PipelinePack. go_unfold. rewrite Hw.
      destruct (decide _); [lia |].
      unfold chan_recv. rewrite Hbuf. reflexivity.
    + st_simpl. cbn [chan_buf]. done.
Qed.

(** X1 on the sample process: one re-entry of a message seen three times. *)
Lemma PipelinePack_within_range_witness :
  0 ≤ 3 ∧ 3 + 1 < uint_modulus ∧ 3 + 1 ≤ MaxMsgLoops (Globals running) ∧
  ∃ s', PipelinePack clock0 3 running =
          Returned (Some {| Msg := stamp clock0 (self running) (Msg pack0);
                            RefCount := 1; MsgLoopCount := 3 + 1;
                            RecycleChan := RecycleChan pack0 |}) s' ∧
        chan_buf (injectRecycleChan (self s')) = [pack0].
Proof.
  assert (H0 : 0 ≤ 3) by lia.
  assert (H1 : 3 + 1 < uint_modulus) by (vm_compute; reflexivity).
  assert (H2 : 3 + 1 ≤ MaxMsgLoops (Globals running)) by (vm_compute; congruence).
  split; [exact H0 |]. split; [exact H1 |]. split; [exact H2 |].
  destruct (proj2 (PipelinePack_within_range clock0 3 running H0 H1) H2
              pack0 [pack0] eq_refl) as (s' & Hrun & Hrest & _).
  exists s'. split; [exact Hrun | exact Hrest].
Defined.

(** X2: with the inject pool empty a call within the limit blocks, also
    when the input pool has idle packs: [PipelinePack] never borrows from
    the input pool. *)
Theorem PipelinePack_blocks_on_empty_inject_pool clock k s :
  uint_wrap (k + 1) ≤ MaxMsgLoops (Globals s) →
  chan_buf (injectRecycleChan (self s)) = [] →
  PipelinePack clock k s = Blocked.
Proof.
  intros Hmax Hbuf. unfold PipelinePack. go_unfold.
  destruct (decide _); [lia |]. unfold chan_recv. by rewrite Hbuf.
Qed.
(** X2 on a process with an idle pack in the input pool only. *)
Lemma PipelinePack_blocks_on_empty_inject_pool_witness :
  uint_wrap (0 + 1) ≤ MaxMsgLoops (Globals inject_starved) ∧
  chan_buf (injectRecycleChan (self inject_starved)) = [] ∧
  chan_buf (inputRecycleChan (self inject_starved)) = [pack0] ∧
  PipelinePack clock0 0 inject_starved = Blocked.
Proof.
  assert (H1 : uint_wrap (0 + 1) ≤ MaxMsgLoops (Globals inject_starved))
    by (vm_compute; congruence).
  assert (H2 : chan_buf (injectRecycleChan (self inject_starved)) = [])
    by (vm_compute; reflexivity).
  split; [exact H1 |]. split; [exact H2 |]. split; [vm_compute; reflexivity |].
  exact (PipelinePack_blocks_on_empty_inject_pool clock0 0 inject_starved H1 H2).
Defined.

(** ** Filters added and removed while running *)

Ltac st_all :=
  st_simpl; lazy beta iota delta [Globals hostname pid inputRecycleChan] in *.

(** X3: a filter whose runner starts is found by [Filter] under its name
    and the waitgroup counts it; removing it again deletes the name, so the
    set of filters is the one before minus that name, the router has been
    sent the matcher twice (once to add, once to remove), and the waitgroup
    still counts the runner: releasing it is left to the runner itself. *)
Theorem AddFilterRunner_then_RemoveFilterRunner Start fRunner s :
  Start fRunner = None →
  Stopping (Globals s) = false →
  fo_inChan fRunner ∉ closed_chans s →
  ∃ s1 s2,
    AddFilterRunner Start fRunner s = Returned None s1 ∧
    Filter (fo_name fRunner) s1 = Returned (Some fRunner) s1 ∧
    filtersWg (self s1) = filtersWg (self s) + 1 ∧
    RemoveFilterRunner (fo_name fRunner) s1 = Returned true s2 ∧
    Filter (fo_name fRunner) s2 = Returned None s2 ∧
    FilterRunners (self s2) = delete (fo_name fRunner) (FilterRunners (self s)) ∧
    mrChan (router (self s2))
      = mrChan (router (self s)) ++ [fo_matcher fRunner; fo_matcher fRunner] ∧
    fo_inChan fRunner ∈ closed_chans s2 ∧
    filtersWg (self s2) = filtersWg (self s) + 1.
Proof.
  intros Hstart Hstop Hopen.
  eexists _, _. split.
  { unfold AddFilterRunner, send_MrChan. go_unfold. rewrite Hstart. reflexivity. }
  split.
  { unfold Filter. go_unfold. st_simpl. by rewrite lookup_insert_eq. }
  split; [by st_simpl |].
  split.
  { unfold RemoveFilterRunner, send_MrChan, close_chan. go_unfold. st_all.
    rewrite Hstop, lookup_insert_eq. rewrite decide_False by done. reflexivity. }
  split.
  { unfold Filter. go_unfold. st_simpl. by rewrite lookup_delete_eq. }
  split; [st_simpl; by rewrite delete_insert_eq |].
  split; [st_simpl; by rewrite <- app_assoc |].
  split; [st_simpl; set_solver | by st_simpl].
Qed.

(** X3 on the sample filter [F]. *)
Lemma AddFilterRunner_then_RemoveFilterRunner_witness :
  let s := startup DefaultGlobals "host" 42 in
  ∃ s1 s2,
    AddFilterRunner (fun _ => None) filterF s = Returned None s1 ∧
    RemoveFilterRunner "F" s1 = Returned true s2 ∧
    FilterRunners (self s2) = delete "F" (FilterRunners (self s)).
Proof.
  cbv zeta.
  assert (H2 : Stopping (Globals (startup DefaultGlobals "host" 42)) = false)
    by (vm_compute; reflexivity).
  assert (H3 : fo_inChan filterF ∉ closed_chans (startup DefaultGlobals "host" 42)).
  { replace (closed_chans (startup DefaultGlobals "host" 42)) with (∅ : gset nat)
      by (vm_compute; reflexivity).
    set_solver. }
  destruct (AddFilterRunner_then_RemoveFilterRunner (fun _ => None) filterF
              (startup DefaultGlobals "host" 42) eq_refl H2 H3)
    as (s1 & s2 & Hadd & _ & _ & Hrem & _ & Hmap & _).
  exists s1, s2. split; [exact Hadd |]. split; [exact Hrem | exact Hmap].
Defined.

(** X4: whatever [RemoveFilterRunner] returns, the wrapper of the filter
    stays in [filterWrappers], the waitgroup counter and the outputs stay
    as they are, and so does every filter of another name; a refusal
    changes nothing at all. *)
Theorem RemoveFilterRunner_keeps name s b s' :
  RemoveFilterRunner name s = Returned b s' →
  filterWrappers (self s') = filterWrappers (self s) ∧
  filtersWg (self s') = filtersWg (self s) ∧
  OutputRunners (self s') = OutputRunners (self s) ∧
  fMatchers (router (self s')) = fMatchers (router (self s)) ∧
  (∀ other, other ≠ name →
     FilterRunners (self s') !! other = FilterRunners (self s) !! other) ∧
  (b = false → s' = s) ∧
  (b = true → is_Some (FilterRunners (self s) !! name)
              ∧ FilterRunners (self s') !! name = None).
Proof.
  unfold RemoveFilterRunner, send_MrChan, close_chan. go_unfold.
  destruct (Stopping (Globals s)).
  { intros [= <- <-]. repeat split; done. }
  destruct (FilterRunners (self s) !! name) as [fRunner |] eqn:Hin.
  2: { intros [= <- <-]. repeat split; done. }
  st_simpl. destruct (decide _); [discriminate |].
  intros [= <- <-]. st_simpl.
  split; [done |]. split; [done |]. split; [done |]. split; [done |].
  split; [intros other Hne; by rewrite lookup_delete_ne |].
  split; [done |]. intros _. split; [by eexists | apply lookup_delete_eq].
Qed.

(** X4 on a process with the one filter [F], removed. *)
Lemma RemoveFilterRunner_keeps_witness :
  let s := set_self (set_FilterRunners <["F" := filterF]>)
                    (startup DefaultGlobals "host" 42) in
  ∃ s', RemoveFilterRunner "F" s = Returned true s' ∧
        filterWrappers (self s') = filterWrappers (self s) ∧
        filtersWg (self s') = filtersWg (self s) ∧
        FilterRunners (self s') !! "F" = None.
Proof.
  cbv zeta.
  destruct (RemoveFilterRunner "F" (set_self (set_FilterRunners <["F" := filterF]>)
              (startup DefaultGlobals "host" 42))) as [b s' | |] eqn:Hrun;
    [| vm_compute in Hrun; discriminate | vm_compute in Hrun; discriminate].
  assert (Hb : b = true) by (vm_compute in Hrun; by injection Hrun as <- _).
  subst b.
  destruct (RemoveFilterRunner_keeps "F" _ true s' Hrun)
    as (Hw & Hwg & _ & _ & _ & _ & Hgone).
  exists s'. split; [reflexivity |]. split; [exact Hw |]. split; [exact Hwg |].
  exact (proj2 (Hgone eq_refl)).
Defined.

(** X5: removing a filter whose inbound channel is already closed panics
    on [close]; by then the matcher has been sent down [MrChan], and the
    runner is still registered. *)
Theorem RemoveFilterRunner_closed_channel_panics name fRunner s :
  Stopping (Globals s) = false →
  FilterRunners (self s) !! name = Some fRunner →
  fo_inChan fRunner ∈ closed_chans s →
  ∃ s', RemoveFilterRunner name s = Panicked "close of closed channel" s' ∧
        mrChan (router (self s')) = mrChan (router (self s)) ++ [fo_matcher fRunner] ∧
        FilterRunners (self s') !! name = Some fRunner.
Proof.
  intros Hstop Hin Hclosed. eexists. split.
  - unfold RemoveFilterRunner, send_MrChan, close_chan. go_unfold.
    rewrite Hstop, Hin. st_simpl. rewrite decide_True by done. reflexivity.
  - st_simpl. done.
Qed.

(** X5 on the filter [F] with its channel closed beforehand. *)
Lemma RemoveFilterRunner_closed_channel_panics_witness :
  let s := set_closed_chans (fun cs => {[fo_inChan filterF]} ∪ cs)
             (set_self (set_FilterRunners <["F" := filterF]>)
                       (startup DefaultGlobals "host" 42)) in
  Stopping (Globals s) = false ∧
  FilterRunners (self s) !! "F" = Some filterF ∧
  fo_inChan filterF ∈ closed_chans s ∧
  ∃ s', RemoveFilterRunner "F" s = Panicked "close of closed channel" s'.
Proof.
  cbv zeta.
  set (s := set_closed_chans _ _).
  assert (H1 : Stopping (Globals s) = false) by (vm_compute; reflexivity).
  assert (H2 : FilterRunners (self s) !! "F" = Some filterF) by apply lookup_insert_eq.
  assert (H3 : fo_inChan filterF ∈ closed_chans s) by (subst s; st_simpl; set_solver).
  split; [exact H1 |]. split; [exact H2 |]. split; [exact H3 |].
  destruct (RemoveFilterRunner_closed_channel_panics "F" filterF s H1 H2 H3)
    as (s' & Hrun & _).
  exists s'. exact Hrun.
Defined.

(** ** Wrappers and config structs *)

(** X6: [Create] drops the error of [CreateWithError].  With a factory
    that returns, it uses one address and gives back nil exactly when the
    type has no [Init] or [Init] panics; when [Init] merely returns an
    error the plugin comes back all the same, uninitialized.  With a
    factory that panics it gives back nil and uses no address. *)
Theorem Create_drops_errors (w : PluginWrapper) (s : State) :
  (∀ reason, pluginCreator w = FactoryPanics reason →
     Create w s = Returned None s) ∧
  (∀ t, pluginCreator w = FactoryNew t →
     ∃ p, Create w s = Returned p (set_next_addr S s) ∧
       (p = None ↔
          pt_Init t = None
          ∨ ∃ init reason, pt_Init t = Some init
              ∧ init (next_addr s) (configCreator w tt) = InitPanics reason) ∧
       (∀ init e, pt_Init t = Some init →
          init (next_addr s) (configCreator w tt) = InitError e →
          p = Some {| inst_type := t; inst_addr := next_addr s;
                      inst_config := None |})).
Proof.
  split.
  - intros reason H. unfold Create, CreateWithError, call_factory. rewrite H.
    reflexivity.
  - intros t H. rewrite (Create_eval w t s H). eexists. split; [reflexivity |].
    destruct (pt_Init t) as [init |] eqn:Hinit.
    + destruct (init (next_addr s) (configCreator w tt)) as [| e | r] eqn:Hi.
      * split; [| intros init' e [= <-]; congruence].
        split; [discriminate |].
        intros [[=] | (init' & r & [= <-] & Hr)]. congruence.
      * split.
        -- split; [discriminate |].
           intros [[=] | (init' & r & [= <-] & Hr)]. congruence.
        -- intros init' e' [= <-] He. unfold minted. by rewrite Hinit, Hi.
      * split; [| intros init' e [= <-]; congruence].
        split; [| done]. intros _. right. eauto.
    + split; [| intros init' e [=]]. split; [by left | done].
Qed.

(** X6 on the two crashing wrappers. *)
Lemma Create_drops_errors_witness :
  let s := startup DefaultGlobals "host" 42 in
  Create crashing_factory_wrapper s = Returned None s ∧
  ∃ p, Create crashing_Init_wrapper s = Returned p (set_next_addr S s) ∧ p = None.
Proof.
  cbv zeta. split.
  - exact (proj1 (Create_drops_errors crashing_factory_wrapper _) "no memory" eq_refl).
  - destruct (proj2 (Create_drops_errors crashing_Init_wrapper
                       (startup DefaultGlobals "host" 42)) CrashDecoder eq_refl)
      as (p & Hrun & Hnil & _).
    exists p. split; [exact Hrun |]. apply Hnil. right.
    exists (fun _ _ => InitPanics "boom"), "boom". split; reflexivity.
Defined.



(** X8: [LoadConfigStruct] never panics and never touches the state.  A
    plugin without a config struct gets the section itself as a
    [PluginConfig]; a [ConfigStruct] that panics comes back as the error
    [ConfigStruct() panicked: <reason>]; a section that does not decode
    into the struct as [Can't unmarshal config: <err>]. *)
Theorem LoadConfigStruct_cases config configable s :
  ∃ r, LoadConfigStruct config configable s = Returned r s ∧
    (∀ kvs, pt_ConfigStruct (inst_type configable) = NoConfigStruct →
       config = TTable kvs → r = inr (CfgMap kvs)) ∧
    (∀ reason, pt_ConfigStruct (inst_type configable) = ConfigStructPanics reason →
       r = inl ("ConfigStruct() panicked: " +:+ reason)) ∧
    (∀ decode, pt_ConfigStruct (inst_type configable) = ConfigStructDefault decode →
       match decode config with
       | inl e => r = inl ("Can't unmarshal config: " +:+ e)
       | inr c => r = inr c
       end).
Proof.
  unfold LoadConfigStruct.
  destruct (pt_ConfigStruct (inst_type configable)) as [| reason | decode];
    go_unfold.
  - eexists. split; [reflexivity |].
    split; [by intros kvs _ -> |]. split; [intros r [=] | intros d [=]].
  - eexists. split; [reflexivity |].
    split; [intros kvs [=] |]. split; [by intros r [= <-] | intros d [=]].
  - destruct (decode config) as [e | c] eqn:Hd; (eexists; split; [reflexivity |]);
      (split; [intros kvs [=] |]); (split; [intros r [=] |]);
      intros d [= <-]; by rewrite Hd.
Qed.

(** X8 on a plugin whose [ConfigStruct] panics. *)
Lemma LoadConfigStruct_cases_witness :
  let s := startup DefaultGlobals "host" 42 in
  LoadConfigStruct (TTable []) broken_config_plugin s =
    Returned (inl "ConfigStruct() panicked: nil map") s.
Proof.
  cbv zeta.
  destruct (LoadConfigStruct_cases (TTable []) broken_config_plugin
              (startup DefaultGlobals "host" 42)) as (r & Hrun & _ & Hpanic & _).
  rewrite Hrun. f_equal. exact (Hpanic "nil map" eq_refl).
Defined.

(** ** Sections that fail, and sections of the other categories *)

Lemma decode_PluginGlobals_table sec into g :
  decode_PluginGlobals sec into = inr g → ∃ kvs, sec = TTable kvs.
Proof. destruct sec; try discriminate. eauto. Qed.



(** X10: a panic of the registered factory is not caught by
    [loadSection]: the section does not count an error, it panics, and so
    does a load whose first section it is. *)
Theorem loadSection_factory_panic (enc : gmap string Z) me name sec g reason s :
  decode_PluginGlobals sec default_PluginGlobals = inr g →
  AvailablePlugins s !! resolve_pluginType name g = Some (FactoryPanics reason) →
  loadSection enc me name sec s = Panicked reason s ∧
  ∀ rest, LoadFromConfigFile enc me (inr ((name, sec) :: rest)) s = Panicked reason s.
Proof.
  intros Hdec Hreg.
  assert (H : loadSection enc me name sec s = Panicked reason s).
  { unfold loadSection. rewrite Hdec. cbv zeta.
    unfold bind at 1, gets at 1. rewrite Hreg. reflexivity. }
  split; [exact H |]. intros rest. unfold LoadFromConfigFile.
  cbn [loadSections]. unfold bind. by rewrite H.
Qed.



(** X10 on a registered factory that panics. *)
Lemma loadSection_factory_panic_witness :
  loadSection wire_encodings (fun _ _ => None) "CrashInput" (TTable []) troubled
    = Panicked "out of memory" troubled.
Proof.
  assert (Hdec : decode_PluginGlobals (TTable []) default_PluginGlobals
                 = inr default_PluginGlobals) by (vm_compute; reflexivity).
  assert (Hreg : AvailablePlugins troubled
                   !! resolve_pluginType "CrashInput" default_PluginGlobals
                 = Some (FactoryPanics "out of memory")) by (vm_compute; reflexivity).
  exact (proj1 (loadSection_factory_panic wire_encodings (fun _ _ => None)
                  "CrashInput" (TTable []) default_PluginGlobals "out of memory"
                  troubled Hdec Hreg)).
Defined.








(** ** Decoder pools at the edges *)







(** ** The encoding table *)

Lemma table_step_refl s : table_step s s.
Proof. split; [done |]. by left. Qed.

Lemma table_step_self f s : table_step s (set_self f s).
Proof. unfold table_step. st_simpl. split; [done |]. by left. Qed.

Lemma table_step_ok s s' :
  table_step s s' → encoding_table_ok s → encoding_table_ok s'.
Proof.
  intros [Hav [[Hd Ht] | (id & d & Hmax & Hreg & Hd & Ht)]] Hok id' d' Hlook.
  - rewrite Hd in Hlook. rewrite Ht, Hav. by apply Hok.
  - rewrite Hd in Hlook. rewrite Ht, Hav.
    destruct (decide (id = id')) as [<- | Hne].
    + rewrite lookup_insert_eq in Hlook. injection Hlook as <-.
      split; [lia |]. done.
    + rewrite lookup_insert_ne in Hlook by done.
      destruct (Hok _ _ Hlook) as (? & ? & ?). split; [lia |]. done.
Qed.

(** X18: [regDecoderForHeader] keeps the encoding table in order, never
    lowers [topHeaderMessageEncoding] and never unbinds an id; calling it
    a second time with the same names returns the same and changes nothing
    more. *)
Theorem regDecoderForHeader_keeps_table (enc : gmap string Z) decoderName
    encodingName s r s' :
  encoding_table_ok s →
  regDecoderForHeader enc decoderName encodingName s = Returned r s' →
  encoding_table_ok s' ∧
  topHeaderMessageEncoding s ≤ topHeaderMessageEncoding s' ∧
  (∀ id, is_Some (DecodersByEncoding s !! id) → is_Some (DecodersByEncoding s' !! id)) ∧
  self s' = self s ∧
  regDecoderForHeader enc decoderName encodingName s' = Returned r s'.
Proof.
  intros Hok Hrun.
  destruct (regDecoderForHeader_returned _ _ _ _ _ _ Hrun)
    as [(err & -> & ->) | (-> & id & Henc & Hmax & [f Hreg] & ->)].
  { split; [done |]. split; [lia |]. split; [done |]. split; [done |]. exact Hrun. }
  split.
  { apply (table_step_ok s); [| done]. split; [done |]. right.
    exists id, decoderName. by split; [| split; [eexists |]]. }
  split; [unfold register_encoding; st_simpl; lia |].
  split.
  { intros id' Hsome. unfold register_encoding. st_simpl.
    destruct (decide (id = id')) as [<- | Hne];
      [rewrite lookup_insert_eq | rewrite lookup_insert_ne]; done. }
  split; [done |].
  rewrite (regDecoderForHeader_accepts enc _ _ id f) by done.
  f_equal. destruct s as [av dec top g na cl this].
  unfold register_encoding. st_simpl. f_equal; [by rewrite insert_insert_eq | lia].
Qed.

(** X18 on the start-up state. *)
Lemma regDecoderForHeader_keeps_table_witness :
  let s := startup DefaultGlobals "host" 42 in
  encoding_table_ok s ∧
  ∃ s', regDecoderForHeader wire_encodings "JsonDecoder" "JSON" s = Returned None s' ∧
        encoding_table_ok s' ∧
        regDecoderForHeader wire_encodings "JsonDecoder" "JSON" s' = Returned None s'.
Proof.
  cbv zeta.
  assert (Hok : encoding_table_ok (startup DefaultGlobals "host" 42)).
  { intros id d H. vm_compute in H. discriminate. }
  split; [exact Hok |].
  assert (Hrun : regDecoderForHeader wire_encodings "JsonDecoder" "JSON"
                   (startup DefaultGlobals "host" 42)
                 = Returned None (register_encoding 1 "JsonDecoder"
                                    (startup DefaultGlobals "host" 42)))
    by (vm_compute; reflexivity).
  destruct (regDecoderForHeader_keeps_table wire_encodings "JsonDecoder" "JSON" _ _ _
              Hok Hrun) as (Hok' & _ & _ & _ & Hagain).
  eexists. split; [exact Hrun |]. split; [exact Hok' | exact Hagain].
Defined.

Lemma loadSection_Decoder_table (enc : gmap string Z) w t pluginType g plugin f
    s n s' :
  pluginCreator w = FactoryNew t →
  inst_type plugin = t →
  AvailablePlugins s !! pluginType = Some f →
  loadSection_Decoder enc w pluginType g plugin s = Returned n s' →
  table_step s s'.
Proof.
  intros Hw Ht Hreg Hrun.
  destruct (loadSection_Decoder_returned _ _ _ _ _ _ _ _ _ Hw Ht Hrun)
    as [(-> & msg & ->) | (-> & s1 & Hs1 & _ & _ & ->)].
  { apply table_step_self. }
  unfold table_step, decoder_installed.
  destruct Hs1 as [(_ & ->) | (_ & id & _ & Hmax & ->)];
    unfold register_encoding; st_simpl; (split; [done |]); [by left |].
  right. exists id, pluginType. by split; [| split; [eexists |]].
Qed.

Lemma loadSection_Input_table w g plugin s n s' :
  loadSection_Input w g plugin s = Returned n s' → table_step s s'.
Proof.
  unfold loadSection_Input, assert_Input. go_unfold.
  destruct (pt_isInput (inst_type plugin)); [| discriminate].
  intros [= <- <-]. unfold table_step. st_simpl. split; [done |]. by left.
Qed.

Lemma loadSection_FilterOutput_table me w category g plugin s n s' :
  loadSection_FilterOutput me w category g plugin s = Returned n s' →
  table_step s s'.
Proof.
  unfold loadSection_FilterOutput, assert_Plugin, NewFORunner, NewMatchRunner,
    alloc, log.
  go_unfold.
  destruct (pt_Init (inst_type plugin)); [| discriminate].
  destruct (decide (Matcher g = "")).
  - repeat destruct (decide _); intros [= <- <-]; unfold table_step; st_simpl;
      (split; [done |]); by left.
  - destruct (me (Matcher g) (Signer g)).
    + intros [= <- <-]. unfold table_step. st_simpl. split; [done |]. by left.
    + repeat destruct (decide _); intros [= <- <-]; unfold table_step; st_simpl;
        (split; [done |]); by left.
Qed.

Lemma table_step_addr f s s' : table_step (set_next_addr f s) s' → table_step s s'.
Proof. unfold table_step. st_simpl. done. Qed.

Lemma loadSection_table (enc : gmap string Z) me name sec s n s' :
  loadSection enc me name sec s = Returned n s' → table_step s s'.
Proof.
  intros Hrun.
  destruct (decode_PluginGlobals sec default_PluginGlobals) as [err | g] eqn:Hdec.
  { revert Hrun. unfold loadSection. rewrite Hdec. unfold log. go_unfold.
    intros [= <- <-]. apply table_step_self. }
  destruct (loadSection_returned _ _ _ _ _ _ _ _ Hdec Hrun)
    as [(-> & msg & [-> | ->]) | (t & config & category & Hreg & _ & Hbranch)].
  - apply table_step_self.
  - apply (table_step_addr S). apply table_step_self.
  - cbv zeta in Hbranch. apply (table_step_addr S).
    destruct (decide (category = "Decoder")).
    { by apply (loadSection_Decoder_table _ _ t _ _ _ (FactoryNew t)) in Hbranch. }
    destruct (decide (category = "Input")).
    { by apply loadSection_Input_table in Hbranch. }
    by apply loadSection_FilterOutput_table in Hbranch.
Qed.

(** X19: a load that returns leaves the encoding table in order if it
    found it so: whatever the sections were, every id bound afterwards is
    at most [topHeaderMessageEncoding], at most 256, and bound to a
    registered plugin; and the registry is the one the load started with. *)
Theorem LoadFromConfigFile_keeps_table (enc : gmap string Z) me decoded s res s' :
  encoding_table_ok s →
  LoadFromConfigFile enc me decoded s = Returned res s' →
  encoding_table_ok s' ∧ AvailablePlugins s' = AvailablePlugins s.
Proof.
  intros Hok. destruct decoded as [err | doc].
  { intros [= <- <-]. done. }
  assert (Hsections : ∀ doc e s0 n s1,
            encoding_table_ok s0 →
            loadSections enc me doc e s0 = Returned n s1 →
            encoding_table_ok s1 ∧ AvailablePlugins s1 = AvailablePlugins s0).
  { clear. induction doc as [| [name conf] rest IH]; intros e s0 n s1 Hok.
    - by intros [= <- <-].
    - cbn [loadSections]. unfold bind at 1.
      destruct (loadSection enc me name conf s0) as [k s2 | |] eqn:Hsec;
        [| discriminate | discriminate].
      intros Hrun. apply loadSection_table in Hsec.
      apply IH in Hrun as [Hok1 Hav1]; [| by apply (table_step_ok s0)].
      split; [done |]. rewrite Hav1. apply Hsec. }
  assert (Hdefault : ∀ name e s0 n s1,
            encoding_table_ok s0 →
            loadDefault enc me name e s0 = Returned n s1 →
            encoding_table_ok s1 ∧ AvailablePlugins s1 = AvailablePlugins s0).
  { clear. intros name e s0 n s1 Hok. unfold loadDefault.
    unfold bind at 1, gets at 1.
    destruct (DecoderWrappers (self s0) !! name); [by intros [= <- <-] |].
    unfold bind at 1.
    destruct (loadSection enc me name _ s0) as [k s2 | |] eqn:Hsec;
      [| discriminate | discriminate].
    intros [= <- <-]. apply loadSection_table in Hsec.
    split; [by apply (table_step_ok s0) | apply Hsec]. }
  unfold LoadFromConfigFile. unfold bind at 1.
  destruct (loadSections enc me doc 0 s) as [n1 s1 | |] eqn:H1;
    [| discriminate | discriminate].
  unfold bind at 1.
  destruct (loadDefault enc me "JsonDecoder" n1 s1) as [n2 s2 | |] eqn:H2;
    [| discriminate | discriminate].
  unfold bind at 1.
  destruct (loadDefault enc me "ProtobufDecoder" n2 s2) as [n3 s3 | |] eqn:H3;
    [| discriminate | discriminate].
  intros Hres.
  assert (s' = s3) as -> by (destruct (decide _); by injection Hres as <- <-).
  apply Hsections in H1 as [Hok1 Hav1]; [| done].
  apply Hdefault in H2 as [Hok2 Hav2]; [| done].
  apply Hdefault in H3 as [Hok3 Hav3]; [| done].
  split; [done | congruence].
Qed.

(** X19 on scenario S3. *)
Lemma LoadFromConfigFile_keeps_table_witness :
  let s := startup DefaultGlobals "host" 42 in
  encoding_table_ok s ∧
  ∃ s', LoadFromConfigFile wire_encodings only_TRUE (inr config_Bad) s
          = Returned (Some "1 errors loading plugins") s' ∧
        encoding_table_ok s'.
Proof.
  cbv zeta.
  assert (Hok : encoding_table_ok (startup DefaultGlobals "host" 42)).
  { intros id d H. vm_compute in H. discriminate. }
  split; [exact Hok |].
  destruct (LoadFromConfigFile wire_encodings only_TRUE (inr config_Bad)
              (startup DefaultGlobals "host" 42)) as [res s' | |] eqn:Hrun;
    [| vm_compute in Hrun; discriminate | vm_compute in Hrun; discriminate].
  assert (Hres : res = Some "1 errors loading plugins")
    by (vm_compute in Hrun; by injection Hrun as <- _).
  subst res. exists s'. split; [reflexivity |].
  exact (proj1 (LoadFromConfigFile_keeps_table _ _ _ _ _ _ Hok Hrun)).
Defined.

(** ** The load as a whole *)

(** X20: a file that does not parse makes the load return
    [Error decoding config file: <err>] with nothing loaded, not even the
    default decoders.  For a document, a load that returns gives nil
    exactly when it logged nothing, and otherwise the summary error with
    the number of lines it logged. *)
Theorem LoadFromConfigFile_error_iff_logged (enc : gmap string Z) me s :
  (∀ err, LoadFromConfigFile enc me (inl err) s =
            Returned (Some ("Error decoding config file: " +:+ err)) s) ∧
  (∀ doc res s',
     Z.of_nat (length doc) + 2 < uint_modulus →
     LoadFromConfigFile enc me (inr doc) s = Returned res s' →
     (res = None ↔ logMsgs (self s') = logMsgs (self s)) ∧
     ∃ msgs, logMsgs (self s') = logMsgs (self s) ++ msgs ∧
       (msgs ≠ [] →
        res = Some (fmt_d (Z.of_nat (length msgs)) +:+ " errors loading plugins"))).
Proof.
  split; [done |]. intros doc res s' Hbound Hrun.
  destruct (LoadFromConfigFile_returned _ _ _ _ _ _ Hrun Hbound)
    as (msgs & Hlog & -> & _).
  split.
  - rewrite Hlog. destruct msgs as [| m msgs]; cbn [length].
    + rewrite decide_True by done. by rewrite app_nil_r.
    + rewrite decide_False by done. split; [done |].
      intros H. apply (f_equal length) in H. rewrite length_app in H.
      cbn [length] in H. lia.
  - exists msgs. split; [done |]. intros Hne.
    destruct msgs; [done |]. cbn [length]. by rewrite decide_False.
Qed.

(** X20 on the empty document. *)
Lemma LoadFromConfigFile_error_iff_logged_witness :
  let s := startup DefaultGlobals "host" 42 in
  ∃ s', LoadFromConfigFile wire_encodings only_TRUE (inr []) s = Returned None s' ∧
        logMsgs (self s') = logMsgs (self s).
Proof.
  cbv zeta.
  destruct (LoadFromConfigFile wire_encodings only_TRUE (inr [])
              (startup DefaultGlobals "host" 42)) as [res s' | |] eqn:Hrun;
    [| vm_compute in Hrun; discriminate | vm_compute in Hrun; discriminate].
  assert (Hres : res = None) by (vm_compute in Hrun; by injection Hrun as <- _).
  subst res. exists s'. split; [reflexivity |].
  apply (proj2 (LoadFromConfigFile_error_iff_logged wire_encodings only_TRUE
                  (startup DefaultGlobals "host" 42)) [] None s');
    [vm_compute; reflexivity | exact Hrun | reflexivity].
Defined.

(** X21: when the sections of the document have left both a
    [JsonDecoder] and a [ProtobufDecoder] wrapper, no default section is
    loaded: the load ends in the state the sections left, with their error
    count.  So a document that spells out the two default sections loads
    to the very state an empty document loads to. *)
Theorem configured_decoders_suppress_defaults (enc : gmap string Z) me s :
  (∀ doc n1 s1,
     loadSections enc me doc 0 s = Returned n1 s1 →
     is_Some (DecoderWrappers (self s1) !! "JsonDecoder") →
     is_Some (DecoderWrappers (self s1) !! "ProtobufDecoder") →
     LoadFromConfigFile enc me (inr doc) s =
       Returned (if decide (n1 = 0) then None
                 else Some (fmt_d n1 +:+ " errors loading plugins")) s1) ∧
  (∀ tj tp idj idp,
     AvailablePlugins s !! "JsonDecoder" = Some (FactoryNew tj) →
     AvailablePlugins s !! "ProtobufDecoder" = Some (FactoryNew tp) →
     plain_decoder tj → plain_decoder tp →
     enc !! "JSON" = Some idj → enc !! "PROTOCOL_BUFFER" = Some idp →
     idj ≤ MAX_HEADER_MESSAGEENCODING → idp ≤ MAX_HEADER_MESSAGEENCODING →
     1 ≤ uint_wrap (DecoderPoolSize (Globals s)) < 2 ^ 63 →
     DecoderWrappers (self s) !! "JsonDecoder" = None →
     DecoderWrappers (self s) !! "ProtobufDecoder" = None →
     LoadFromConfigFile enc me (inr defaultDecoderTOML) s
       = LoadFromConfigFile enc me (inr []) s
     ∧ ∃ s', LoadFromConfigFile enc me (inr []) s = Returned None s').
Proof.
  split.
  - intros doc n1 s1 H1 [wj Hj] [wp Hp]. unfold LoadFromConfigFile.
    unfold bind at 1. rewrite H1. unfold loadDefault, bind, gets, ret.
    rewrite Hj, Hp. by destruct (decide _).
  - intros tj tp idj idp Hrj Hrp Hpj Hpp Hej Hep Hij Hip Hpool Hwj Hwp.
    assert (Hjson : loadSection enc me "JsonDecoder" (encoding_section "JSON") s
                    = Returned 0 (default_loaded "JsonDecoder" "JSON" tj idj s))
      by by apply loadSection_default.
    set (s1 := default_loaded "JsonDecoder" "JSON" tj idj s) in *.
    assert (Hproto : loadSection enc me "ProtobufDecoder"
                       (encoding_section "PROTOCOL_BUFFER") s1
                     = Returned 0 (default_loaded "ProtobufDecoder" "PROTOCOL_BUFFER"
                                     tp idp s1)).
    { apply loadSection_default; try done;
        subst s1; unfold default_loaded, decoder_installed, register_encoding;
        st_simpl; first [exact Hrp | exact Hpool]. }
    set (s2 := default_loaded "ProtobufDecoder" "PROTOCOL_BUFFER" tp idp s1) in *.
    assert (H1p : DecoderWrappers (self s1) !! "ProtobufDecoder" = None).
    { subst s1. unfold default_loaded, decoder_installed, register_encoding.
      st_simpl. by rewrite lookup_insert_ne. }
    assert (H1j : is_Some (DecoderWrappers (self s1) !! "JsonDecoder")).
    { subst s1. unfold default_loaded, decoder_installed, register_encoding.
      st_simpl. rewrite lookup_insert_eq. by eexists. }
    assert (H2j : is_Some (DecoderWrappers (self s2) !! "JsonDecoder")).
    { subst s2. unfold default_loaded at 1, decoder_installed, register_encoding.
      st_simpl. by rewrite lookup_insert_ne. }
    assert (H2p : is_Some (DecoderWrappers (self s2) !! "ProtobufDecoder")).
    { subst s2. unfold default_loaded at 1, decoder_installed, register_encoding.
      st_simpl. rewrite lookup_insert_eq. by eexists. }
    assert (Hempty : LoadFromConfigFile enc me (inr []) s = Returned None s2).
    { unfold LoadFromConfigFile. cbn [loadSections].
      unfold loadDefault, bind, gets, ret. rewrite Hwj.
      change (ConfigFile_index defaultDecoderTOML "JsonDecoder")
        with (encoding_section "JSON").
      rewrite Hjson. fold s1. rewrite H1p.
      change (ConfigFile_index defaultDecoderTOML "ProtobufDecoder")
        with (encoding_section "PROTOCOL_BUFFER").
      rewrite Hproto. reflexivity. }
    split; [| by eexists].
    rewrite Hempty. unfold LoadFromConfigFile, defaultDecoderTOML.
    cbn [loadSections]. unfold bind at 1. unfold bind at 1.
    fold (encoding_section "JSON"). rewrite Hjson.
    unfold bind at 1.
    fold (encoding_section "PROTOCOL_BUFFER"). rewrite Hproto.
    unfold loadDefault, bind, gets, ret.
    destruct H2j as [wj ->]. destruct H2p as [wp ->]. reflexivity.
Qed.

(** X21 on the start-up state. *)
Lemma configured_decoders_suppress_defaults_witness :
  let s := startup DefaultGlobals "host" 42 in
  LoadFromConfigFile wire_encodings only_TRUE (inr defaultDecoderTOML) s
    = LoadFromConfigFile wire_encodings only_TRUE (inr []) s.
Proof.
  cbv zeta.
  assert (Hplain : ∀ name, plain_decoder (stock name true false)).
  { intros name. split; [reflexivity |]. split; [| reflexivity].
    exists (fun _ _ => InitOk). split; reflexivity. }
  assert (Hpool : 1 ≤ uint_wrap (DecoderPoolSize (Globals (startup DefaultGlobals
                    "host" 42))) < 2 ^ 63)
    by (split; vm_compute; congruence).
  refine (proj1 (proj2 (configured_decoders_suppress_defaults wire_encodings only_TRUE
                          (startup DefaultGlobals "host" 42))
                   (stock "JsonDecoder" true false) (stock "ProtobufDecoder" true false)
                   1 0 _ _ (Hplain _) (Hplain _) _ _ _ _ Hpool _ _));
    try (vm_compute; reflexivity); unfold MAX_HEADER_MESSAGEENCODING; lia.
Defined.

(** ** The plugin type pattern, again *)

Lemma has_newline_app pre suffix :
  has_newline (pre +:+ suffix) = false → has_newline pre = false.
Proof.
  induction pre as [| c pre IH]; [done |]. simpl.
  destruct (decide (c = newline)); [done | exact IH].
Qed.

(** X22: the pattern only ever gives one of its four alternatives, and
    one the type ends in; for a type without a line feed it gives a
    category exactly when the type ends in it, so no such type has two
    categories. *)
Theorem category_is_the_suffix s :
  (∀ g, match_dot_star_group s = Some g →
     g ∈ PluginTypeAlternatives ∧ ends_with g s) ∧
  (has_newline s = false →
     (∀ g, match_dot_star_group s = Some g
           ↔ g ∈ PluginTypeAlternatives ∧ ends_with g s) ∧
     (∀ g1 g2, g1 ∈ PluginTypeAlternatives → g2 ∈ PluginTypeAlternatives →
        ends_with g1 s → ends_with g2 s → g1 = g2)).
Proof.
  assert (Hsound : ∀ g, match_dot_star_group s = Some g →
            g ∈ PluginTypeAlternatives ∧ ends_with g s).
  { intros g Hm. destruct (match_dot_star_group_sound _ _ Hm) as (Hin & pre & -> & _).
    split; [done |]. by exists pre. }
  split; [exact Hsound |]. intros Hnl.
  assert (Hcomplete : ∀ g, g ∈ PluginTypeAlternatives → ends_with g s →
            match_dot_star_group s = Some g).
  { intros g Hin [pre ->]. apply match_dot_star_group_complete; [done |].
    by apply has_newline_app in Hnl. }
  split.
  - intros g. split; [apply Hsound | intros [? ?]; by apply Hcomplete].
  - intros g1 g2 H1 H2 He1 He2.
    apply Hcomplete in He1; [| done]. apply Hcomplete in He2; [| done]. congruence.
Qed.

(** X22 on a name that ends in [Output] and contains [Input]. *)
Lemma category_is_the_suffix_witness :
  has_newline "InputOutput" = false ∧
  match_dot_star_group "InputOutput" = Some "Output".
Proof.
  assert (Hnl : has_newline "InputOutput" = false) by reflexivity.
  split; [exact Hnl |].
  apply (proj1 (proj2 (category_is_the_suffix "InputOutput") Hnl)).
  split; [unfold PluginTypeAlternatives; set_solver | by exists "Input"].
Defined.

(** X23: every plugin type that [init] registers has a category: a
    section of a built-in type is never refused for its type name. *)
Theorem init_names_have_categories (s : State) name :
  AvailablePlugins s = ∅ →
  is_Some (AvailablePlugins (init s) !! name) →
  ∃ category, match_dot_star_group name = Some category.
Proof.
  intros Hempty. unfold init, RegisterPlugin. st_simpl. rewrite Hempty.
  repeat (rewrite lookup_insert; destruct (decide _) as [<- | _];
          [intros _; vm_compute; eauto |]).
  rewrite lookup_empty. by intros [? ?].
Qed.

(** X23 on one of the registered names. *)
Lemma init_names_have_categories_witness :
  ∃ category, match_dot_star_group "SandboxManagerFilter" = Some category.
Proof.
  apply (init_names_have_categories
           {| AvailablePlugins := ∅; DecodersByEncoding := ∅;
              topHeaderMessageEncoding := 0; Globals := DefaultGlobals;
              next_addr := 0; closed_chans := ∅;
              self := NewPipelineConfig DefaultGlobals "host" 42 |}).
  - reflexivity.
  - vm_compute. eauto.
Defined.

(** ** What a failed section leaves behind *)

Lemma set_next_addr_twice k s :
  set_next_addr S (set_next_addr (fun a => (a + k)%nat) s)
  = set_next_addr (fun a => (a + S k)%nat) s.
Proof. destruct s. st_simpl. f_equal. lia. Qed.

Lemma set_next_addr_zero s : set_next_addr (fun a => (a + 0)%nat) s = s.
Proof. destruct s. st_simpl. f_equal. lia. Qed.

Lemma loadSection_FilterOutput_failed me w category g plugin s s' :
  loadSection_FilterOutput me w category g plugin s = Returned 1 s' →
  ∃ msg, s' = set_self (set_logMsgs (fun l => l ++ [msg])) (set_next_addr S s).
Proof.
  unfold loadSection_FilterOutput, assert_Plugin, NewFORunner, NewMatchRunner,
    alloc, log.
  go_unfold.
  destruct (pt_Init (inst_type plugin)); [| discriminate].
  destruct (decide (Matcher g = "")).
  - repeat destruct (decide _); discriminate.
  - destruct (me (Matcher g) (Signer g)).
    + intros [= <-]. eauto.
    + repeat destruct (decide _); discriminate.
Qed.

(** X24: a section that comes back has counted no error or one.  With no
    error it has logged nothing; with one it has logged one line and
    installed nothing: but for that line and the addresses used up on the
    way, the state is the one it started from.  Either way the registry
    and the globals are untouched. *)
Theorem loadSection_failure_leaves_no_trace (enc : gmap string Z) me name sec
    s n s' :
  loadSection enc me name sec s = Returned n s' →
  AvailablePlugins s' = AvailablePlugins s ∧
  Globals s' = Globals s ∧
  (n = 0 ∧ logMsgs (self s') = logMsgs (self s)
   ∨ n = 1 ∧ ∃ msg k,
       s' = set_self (set_logMsgs (fun l => l ++ [msg]))
              (set_next_addr (fun a => (a + k)%nat) s)).
Proof.
  intros Hrun.
  destruct (loadSection_frame _ _ _ _ _ _ _ Hrun) as (Hav & Hgl & _ & Hlog).
  split; [done |]. split; [done |].
  destruct Hlog as [[-> Hlog] | [-> _]]; [by left |]. right. split; [done |].
  destruct (decode_PluginGlobals sec default_PluginGlobals) as [err | g] eqn:Hdec.
  { revert Hrun. unfold loadSection. rewrite Hdec. unfold log. go_unfold.
    intros [= <-]. eexists _, 0%nat. by rewrite set_next_addr_zero. }
  destruct (loadSection_returned _ _ _ _ _ _ _ _ Hdec Hrun)
    as [(_ & msg & [-> | ->]) | (t & config & category & Hreg & _ & Hbranch)].
  - exists msg, 0%nat. by rewrite set_next_addr_zero.
  - exists msg, 1%nat. by rewrite <- set_next_addr_twice, set_next_addr_zero.
  - cbv zeta in Hbranch.
    destruct (decide (category = "Decoder")).
    { apply (loadSection_Decoder_returned _ _ t) in Hbranch; [| done | done].
      destruct Hbranch as [(_ & msg & ->) | ([=] & _)].
      exists msg, 1%nat. by rewrite <- set_next_addr_twice, set_next_addr_zero. }
    destruct (decide (category = "Input")).
    { revert Hbranch. unfold loadSection_Input, assert_Input. go_unfold.
      destruct (pt_isInput _); discriminate. }
    apply loadSection_FilterOutput_failed in Hbranch as (msg & ->).
    exists msg, 2%nat.
    by rewrite <- !set_next_addr_twice, set_next_addr_zero.
Qed.

(** X24 on the section [Bad] of scenario S3. *)
Lemma loadSection_failure_leaves_no_trace_witness :
  ∃ s' msg k,
    loadSection wire_encodings only_TRUE "Bad" (TTable [("type", TString "NoSuchThing")])
      (startup DefaultGlobals "host" 42) = Returned 1 s' ∧
    s' = set_self (set_logMsgs (fun l => l ++ [msg]))
           (set_next_addr (fun a => (a + k)%nat) (startup DefaultGlobals "host" 42)).
Proof.
  destruct (loadSection wire_encodings only_TRUE "Bad"
              (TTable [("type", TString "NoSuchThing")])
              (startup DefaultGlobals "host" 42)) as [n s' | |] eqn:Hrun;
    [| vm_compute in Hrun; discriminate | vm_compute in Hrun; discriminate].
  assert (Hn : n = 1) by (vm_compute in Hrun; by injection Hrun as <- _).
  subst n.
  destruct (loadSection_failure_leaves_no_trace _ _ _ _ _ _ _ Hrun)
    as (_ & _ & [[[=] _] | (_ & msg & k & Hs')]).
  exists s', msg, k. split; [reflexivity | exact Hs'].
Defined.
